(** * venom: the RADIUS and DNS step executors

    A shallow embedding of [executors/radius] and [executors/dns]: the
    [Run] method of each executor, with [addAttribute], [stringToQType],
    [dnsMessageToJSON] and [rrToJSON], followed by the properties of the
    executor contract that the specification states about them.

    Everything outside the two packages is kept behind an interface:
    the third-party libraries (mapstructure, miekg/dns, layeh/radius)
    are the fields of a [Library] record, and the clock, the network and
    the random sources are the script carried by a [World]. *)

From Stdlib Require Import ZArith Ascii String List Lia.
From stdpp Require Import base option list strings gmap pretty.

Local Open Scope Z_scope.
Set Warnings "-register-all".
Set Default Proof Using "Type".

(** ** Go values shared by both packages *)

(** A Go [error], kept as the text its [Error()] method returns; the
    [nil] error is [None] of [option error]. *)
Definition error := string.

(** [time.Time] and [time.Duration], both in nanoseconds. *)
Definition Time := Z.
Definition Duration := Z.

Definition Second : Duration := 1000000000.

(** Conversion to a signed 64-bit integer ([int], [int64], [Duration]). *)
Definition wrap64 (n : Z) : Z := (n + 2 ^ 63) mod 2 ^ 64 - 2 ^ 63.

(** Conversion to [uint32]. *)
Definition uint32 (n : Z) : Z := n mod 2 ^ 32.

(** [time.Time.Sub] saturates at the bounds of [Duration]. *)
Definition Sub (t u : Time) : Duration :=
  Z.max (- 2 ^ 63) (Z.min (2 ^ 63 - 1) (t - u)).

Definition nl : string := String (ascii_of_nat 10) "".

(** A Go [switch] on a string with constant [case] labels: the first
    label equal to [x] selects its branch, [dflt] is the [default:]. *)
Fixpoint switch {A : Type} (x : string) (cases : list (string * A)) (dflt : A) : A :=
  match cases with
  | [] => dflt
  | (label, branch) :: rest =>
      if String.eqb x label then branch else switch x rest dflt
  end.

(** [context.Context], as far as the executors use it: the deadline. *)
Record Context := { Deadline : option Time }.

Definition Background : Context := {| Deadline := None |}.

(** ** Effects

    A run reads the clock, draws random identifiers, exchanges
    messages with a server and ranges over maps.  A [World] scripts
    what the clock, the random source and the server answer, one stream
    each, fixes the order in which a map is visited, and logs the
    exchanges performed. *)

Section World.
Context {Call Reply : Type}.

Record World := {
  clock : nat -> Time;          (* the clock at its successive readings *)
  wire : nat -> Reply;          (* the outcome of the successive exchanges *)
  random : nat -> Z;            (* the successive random draws *)
  order : list (string * string) -> list (string * string);
                                (* the order a [range] visits a map in *)
  sent : list Call              (* the exchanges performed, oldest first *)
}.

Definition M (A : Type) : Type := World -> A * World.

Definition ret {A} (a : A) : M A := fun w => (a, w).

Definition bind {A B} (m : M A) (k : A -> M B) : M B :=
  fun w => let (a, w') := m w in k a w'.

(** [time.Now()] *)
Definition Now : M Time := fun w =>
  (clock w 0%nat,
   {| clock := fun n => clock w (S n); wire := wire w; random := random w;
      order := order w; sent := sent w |}).

(** [time.Since(start)] *)
Definition Since (start : Time) : M Duration :=
  bind Now (fun t => ret (Sub t start)).

(** One draw from a random source. *)
Definition Draw : M Z := fun w =>
  (random w 0%nat,
   {| clock := clock w; wire := wire w; random := fun n => random w (S n);
      order := order w; sent := sent w |}).

(** One exchange with a server: the call is logged and the next
    scripted outcome is returned. *)
Definition Exchange (c : Call) : M Reply := fun w =>
  (wire w 0%nat,
   {| clock := clock w; wire := fun n => wire w (S n); random := random w;
      order := order w; sent := sent w ++ [c] |}).

(** The order in which a [range] over the map with entries [m] visits them. *)
Definition Range (m : list (string * string)) : M (list (string * string)) :=
  fun w => (order w m, w).

(** [context.WithTimeout(parent, timeout)]: the deadline is [timeout]
    from now, unless the parent's is earlier. *)
Definition WithTimeout (parent : Context) (timeout : Duration) : M Context :=
  bind Now (fun now =>
    let d := now + timeout in
    ret {| Deadline := Some (match Deadline parent with
                             | Some cur => if cur <? d then cur else d
                             | None => d
                             end) |}).
End World.

Arguments World : clear implicits.
Arguments M : clear implicits.

Notation "x <- m ;; k" := (bind m (fun x => k))
  (at level 100, m at next level, right associativity).

(** [strconv.Atoi] on a 64-bit platform: an optional sign, then one or
    more decimal digits, the value within the range of [int]. *)
Definition digit (c : ascii) : option Z :=
  let n := Z.of_nat (nat_of_ascii c) in
  if (48 <=? n) && (n <=? 57) then Some (n - 48) else None.

Fixpoint digits (s : string) (acc : Z) : option Z :=
  match s with
  | EmptyString => Some acc
  | String c s' =>
      match digit c with
      | Some d => digits s' (acc * 10 + d)
      | None => None
      end
  end.

Definition Atoi (s : string) : option Z :=
  let '(neg, body) :=
    match s with
    | String "-" r => (true, r)
    | String "+" r => (false, r)
    | _ => (false, s)
    end in
  match body with
  | EmptyString => None
  | _ =>
      match digits body 0 with
      | Some n =>
          let v := if neg : bool then - n else n in
          if (- 2 ^ 63 <=? v) && (v <=? 2 ^ 63 - 1) then Some v else None
      | None => None
      end
  end.

(** A value held in an [interface{}]: the trees the executors build for
    [SystemoutJSON], [Message], [Attributes] and [Request]. *)
Inductive Any :=
  | Bool (b : bool)
  | Num (n : Z)
  | Str (s : string)
  | Strs (l : list string)                (* []string *)
  | StrMap (m : gmap string string)       (* map[string]string *)
  | Seq (l : list Any)                    (* []map[string]interface{} *)
  | Map (m : gmap string Any).            (* map[string]interface{} *)

(** * The RADIUS executor *)

Module Radius.

(** [radius.Code] and the named codes of layeh.com/radius. *)
Definition CodeAccessRequest : Z := 1.
Definition CodeAccessAccept : Z := 2.
Definition CodeAccessReject : Z := 3.
Definition CodeAccountingRequest : Z := 4.
Definition CodeAccountingResponse : Z := 5.
Definition CodeAccessChallenge : Z := 11.
Definition CodeStatusServer : Z := 12.
Definition CodeStatusClient : Z := 13.
Definition CodeDisconnectRequest : Z := 40.
Definition CodeDisconnectACK : Z := 41.
Definition CodeDisconnectNAK : Z := 42.
Definition CodeCoARequest : Z := 43.
Definition CodeCoAACK : Z := 44.
Definition CodeCoANAK : Z := 45.

(** The attributes of packages rfc2865 and rfc2866 that [addAttribute]
    sets, under the names of their setter functions. *)
Inductive Attr :=
  | UserName | UserPassword | NASIPAddress | NASPort | ServiceType
  | FramedProtocol | FramedIPAddress | FramedIPNetmask | FramedRouting
  | FilterID | FramedMTU | ReplyMessage | CallbackNumber | CallbackID
  | FramedRoute | FramedIPXNetwork | State | Class | SessionTimeout
  | IdleTimeout | TerminationAction | CalledStationID | CallingStationID
  | NASIdentifier | ProxyState | LoginLATService | LoginLATNode
  | LoginLATGroup | FramedAppleTalkZone
  | AcctStatusType | AcctSessionID | AcctAuthentic | AcctSessionTime
  | AcctInputOctets | AcctOutputOctets | AcctInputPackets
  | AcctOutputPackets | AcctTerminateCause | AcctMultiSessionID
  | AcctLinkCount.

(** What a setter is handed: [X_SetString(packet, value)] takes the
    string, [X_Set(packet, []byte(value))] the bytes of the string, and
    [X_Set(packet, X(n))] an integer converted to the [uint32] type [X]. *)
Inductive Value :=
  | Text (s : string)
  | Bytes (b : list Byte.byte)
  | Integer (n : Z).

(** The request packet: [radius.New(code, secret)] and the setter calls
    made on it since, oldest first. *)
Record Packet := {
  PCode : Z;
  PSecret : string;
  PNonce : Z;                       (* random identifier and authenticator *)
  Sets : list (Attr * Value)
}.

Definition Set_ (a : Attr) (v : Value) (p : Packet) : Packet :=
  {| PCode := PCode p; PSecret := PSecret p; PNonce := PNonce p;
     Sets := Sets p ++ [(a, v)] |}.

(** The response packet, as [Run] reads it. *)
Record Response := {
  RCode : Z;                              (* response.Code *)
  UserName_GetString : string;            (* empty when absent *)
  ReplyMessage_GetString : string;
  AcctSessionID_GetString : string
}.

Module Executor.
Record t := {
  Server : string;
  Secret : string;
  Code : string;
  Timeout : Z;
  Attributes : gmap string string
}.
End Executor.

Module Result.
Record t := {
  Systemout : string;
  SystemoutJSON : option Any;
  Systemerr : string;
  SystemerrJSON : option Any;
  Err : string;
  Code : string;
  TimeSeconds : Duration;   (* [elapsed.Seconds()], kept as the elapsed
                               [Duration]; the zero value is 0 *)
  Attributes : option (gmap string string);  (* [nil] is [None] *)
  Request : option (gmap string Any)
}.

Definition zero : t :=
  {| Systemout := ""; SystemoutJSON := None; Systemerr := "";
     SystemerrJSON := None; Err := ""; Code := ""; TimeSeconds := 0;
     Attributes := None; Request := None |}.

Definition setErr (v : string) (r : t) : t :=
  {| Systemout := Systemout r; SystemoutJSON := SystemoutJSON r;
     Systemerr := Systemerr r; SystemerrJSON := SystemerrJSON r;
     Err := v; Code := Code r; TimeSeconds := TimeSeconds r;
     Attributes := Attributes r; Request := Request r |}.

Definition setTimeSeconds (v : Duration) (r : t) : t :=
  {| Systemout := Systemout r; SystemoutJSON := SystemoutJSON r;
     Systemerr := Systemerr r; SystemerrJSON := SystemerrJSON r;
     Err := Err r; Code := Code r; TimeSeconds := v;
     Attributes := Attributes r; Request := Request r |}.

Definition setRequest (v : gmap string Any) (r : t) : t :=
  {| Systemout := Systemout r; SystemoutJSON := SystemoutJSON r;
     Systemerr := Systemerr r; SystemerrJSON := SystemerrJSON r;
     Err := Err r; Code := Code r; TimeSeconds := TimeSeconds r;
     Attributes := Attributes r; Request := Some v |}.

Definition setCode (v : string) (r : t) : t :=
  {| Systemout := Systemout r; SystemoutJSON := SystemoutJSON r;
     Systemerr := Systemerr r; SystemerrJSON := SystemerrJSON r;
     Err := Err r; Code := v; TimeSeconds := TimeSeconds r;
     Attributes := Attributes r; Request := Request r |}.

Definition setAttributes (v : gmap string string) (r : t) : t :=
  {| Systemout := Systemout r; SystemoutJSON := SystemoutJSON r;
     Systemerr := Systemerr r; SystemerrJSON := SystemerrJSON r;
     Err := Err r; Code := Code r; TimeSeconds := TimeSeconds r;
     Attributes := Some v; Request := Request r |}.

Definition setSystemout (v : string) (r : t) : t :=
  {| Systemout := v; SystemoutJSON := SystemoutJSON r;
     Systemerr := Systemerr r; SystemerrJSON := SystemerrJSON r;
     Err := Err r; Code := Code r; TimeSeconds := TimeSeconds r;
     Attributes := Attributes r; Request := Request r |}.

Definition setSystemoutJSON (v : Any) (r : t) : t :=
  {| Systemout := Systemout r; SystemoutJSON := Some v;
     Systemerr := Systemerr r; SystemerrJSON := SystemerrJSON r;
     Err := Err r; Code := Code r; TimeSeconds := TimeSeconds r;
     Attributes := Attributes r; Request := Request r |}.
End Result.

(** The libraries behind the executor. *)
Record Library := {
  TestStep : Type;                          (* venom.TestStep *)
  Decode : TestStep -> error + Executor.t;  (* mapstructure.Decode(step, &e),
                                               [e] the zero Executor *)
  Code_String : Z -> string                 (* radius.Code.String *)
}.

(** One call of [radius.Exchange(ctx, packet, addr)] and its outcome. *)
Definition Call : Type := Context * Packet * string.
Definition Reply : Type := error + Response.

(** [[]byte(value)] *)
Definition bytes (value : string) : list Byte.byte := list_byte_of_string value.

(** [addAttribute] adds a RADIUS attribute to the packet. *)
Definition addAttribute (packet : Packet) (name value : string) : Packet * option error :=
  let SetString a := (Set_ a (Text value) packet, None) in
  let SetBytes a := (Set_ a (Bytes (bytes value)) packet, None) in
  let SetAtoi a (label : string) :=
    match Atoi value with
    | Some n => (Set_ a (Integer (uint32 n)) packet, None)
    | None => (packet, Some ("invalid " +:+ label +:+ " value: " +:+ value))
    end in
  let SetEnum a (label : string) (names : list (string * option Z)) :=
    match switch value names None with
    | Some n => (Set_ a (Integer n) packet, None)
    | None => (packet, Some ("unsupported " +:+ label +:+ ": " +:+ value))
    end in
  switch name [
    ("User-Name", SetString UserName);
    ("User-Password", SetString UserPassword);
    ("NAS-IP-Address", SetBytes NASIPAddress);
    ("NAS-Port", SetAtoi NASPort "NAS-Port");
    ("Service-Type", SetEnum ServiceType "Service-Type" [
       ("Login-User", Some 1); ("Framed-User", Some 2);
       ("Callback-Login-User", Some 3); ("Callback-Framed-User", Some 4);
       ("Outbound-User", Some 5); ("Administrative-User", Some 6);
       ("NAS-Prompt-User", Some 7); ("Call-Check-User", Some 8);
       ("Callback-Administrative-User", Some 9)]);
    ("Framed-Protocol", SetEnum FramedProtocol "Framed-Protocol" [
       ("PPP", Some 1); ("SLIP", Some 2); ("ARAP", Some 3);
       ("Gandalf", Some 4); ("Xylogics", Some 5);
       ("X.75-Synchronous", Some 6)]);
    ("Framed-IP-Address", SetBytes FramedIPAddress);
    ("Framed-IP-Netmask", SetBytes FramedIPNetmask);
    ("Framed-Routing", SetEnum FramedRouting "Framed-Routing" [
       ("None", Some 0); ("Broadcast", Some 1); ("Listen", Some 2);
       ("Broadcast-Listen", Some 3)]);
    ("Filter-Id", SetString FilterID);
    ("Framed-MTU", SetAtoi FramedMTU "Framed-MTU");
    ("Reply-Message", SetString ReplyMessage);
    ("Callback-Number", SetString CallbackNumber);
    ("Callback-Id", SetString CallbackID);
    ("Framed-Route", SetString FramedRoute);
    ("Framed-IPX-Network", SetBytes FramedIPXNetwork);
    ("State", SetString State);
    ("Class", SetString Class);
    ("Session-Timeout", SetAtoi SessionTimeout "Session-Timeout");
    ("Idle-Timeout", SetAtoi IdleTimeout "Idle-Timeout");
    ("Termination-Action", SetEnum TerminationAction "Termination-Action" [
       ("Default", Some 0); ("RADIUS-Request", Some 1)]);
    ("Called-Station-Id", SetString CalledStationID);
    ("Calling-Station-Id", SetString CallingStationID);
    ("NAS-Identifier", SetString NASIdentifier);
    ("Proxy-State", SetString ProxyState);
    ("Login-LAT-Service", SetString LoginLATService);
    ("Login-LAT-Node", SetString LoginLATNode);
    ("Login-LAT-Group", SetString LoginLATGroup);
    ("Framed-AppleTalk-Zone", SetString FramedAppleTalkZone);
    ("Acct-Status-Type", SetEnum AcctStatusType "Acct-Status-Type" [
       ("Start", Some 1); ("Stop", Some 2); ("Interim-Update", Some 3);
       ("Accounting-On", Some 7); ("Accounting-Off", Some 8)]);
    ("Acct-Session-Id", SetString AcctSessionID);
    ("Acct-Authentic", SetEnum AcctAuthentic "Acct-Authentic" [
       ("RADIUS", Some 1); ("Local", Some 2); ("Remote", Some 3)]);
    ("Acct-Session-Time", SetAtoi AcctSessionTime "Acct-Session-Time");
    ("Acct-Input-Octets", SetAtoi AcctInputOctets "Acct-Input-Octets");
    ("Acct-Output-Octets", SetAtoi AcctOutputOctets "Acct-Output-Octets");
    ("Acct-Input-Packets", SetAtoi AcctInputPackets "Acct-Input-Packets");
    ("Acct-Output-Packets", SetAtoi AcctOutputPackets "Acct-Output-Packets");
    ("Acct-Terminate-Cause", SetEnum AcctTerminateCause "Acct-Terminate-Cause" [
       ("User-Request", Some 1); ("Lost-Carrier", Some 2);
       ("Lost-Service", Some 3); ("Idle-Timeout", Some 4);
       ("Session-Timeout", Some 5); ("Admin-Reset", Some 6);
       ("Admin-Reboot", Some 7); ("Port-Error", Some 8);
       ("NAS-Error", Some 9); ("NAS-Request", Some 10);
       ("NAS-Reboot", Some 11); ("Port-Unneeded", Some 12);
       ("Port-Preempted", Some 13); ("Port-Suspended", Some 14);
       ("Service-Unavailable", Some 15); ("Callback", Some 16);
       ("User-Error", Some 17); ("Host-Request", Some 18)]);
    ("Acct-Multi-Session-Id", SetString AcctMultiSessionID);
    ("Acct-Link-Count", SetAtoi AcctLinkCount "Acct-Link-Count")
  ] (packet, Some ("unsupported attribute: " +:+ name)).

(** The [switch e.Code] of [Run]; [None] is its [default:]. *)
Definition parseCode (code : string) : option Z :=
  switch code [
    ("Access-Request", Some CodeAccessRequest);
    ("Access-Accept", Some CodeAccessAccept);
    ("Access-Reject", Some CodeAccessReject);
    ("Accounting-Request", Some CodeAccountingRequest);
    ("Accounting-Response", Some CodeAccountingResponse);
    ("Access-Challenge", Some CodeAccessChallenge);
    ("Status-Server", Some CodeStatusServer);
    ("Status-Client", Some CodeStatusClient);
    ("Disconnect-Request", Some CodeDisconnectRequest);
    ("Disconnect-ACK", Some CodeDisconnectACK);
    ("Disconnect-NAK", Some CodeDisconnectNAK);
    ("CoA-Request", Some CodeCoARequest);
    ("CoA-ACK", Some CodeCoAACK);
    ("CoA-NAK", Some CodeCoANAK)
  ] None.

Section Run.
Variable lib : Library.

Abbreviation Eff := (M Call Reply).

(** The "Set defaults" block of [Run]. *)
Definition defaults (e : Executor.t) : Executor.t :=
  {| Executor.Server :=
       if String.eqb (Executor.Server e) "" then "localhost:1812" else Executor.Server e;
     Executor.Secret :=
       if String.eqb (Executor.Secret e) "" then "secret" else Executor.Secret e;
     Executor.Code :=
       if String.eqb (Executor.Code e) "" then "Access-Request" else Executor.Code e;
     Executor.Timeout :=
       if Executor.Timeout e =? 0 then 5 else Executor.Timeout e;
     Executor.Attributes := Executor.Attributes e |}.

(** [radius.New(code, secret)] *)
Definition New (code : Z) (secret : string) : Eff Packet :=
  nonce <- Draw ;;
  ret {| PCode := code; PSecret := secret; PNonce := nonce; Sets := [] |}.

(** The loop "Add attributes" over the entries in visiting order: the
    packet with every attribute added, or the name and the error of
    the first attribute that [addAttribute] refuses. *)
Fixpoint addAttributes (packet : Packet) (attrs : list (string * string))
  : (string * error) + Packet :=
  match attrs with
  | [] => inr packet
  | (attrName, attrValue) :: rest =>
      match addAttribute packet attrName attrValue with
      | (_, Some err) => inl (attrName, err)
      | (packet', None) => addAttributes packet' rest
      end
  end.

(** The three "Extract common attributes" tests, in source order. *)
Definition extract (response : Response) : gmap string string :=
  let put (key value : string) (m : gmap string string) :=
    if String.eqb value "" then m else <[key := value]> m in
  put "Acct-Session-Id" (AcctSessionID_GetString response)
    (put "Reply-Message" (ReplyMessage_GetString response)
      (put "User-Name" (UserName_GetString response) ∅)).

(** The "Build system output" block. *)
Definition systemout (code : string) (attributes : gmap string string) : Eff string :=
  let head := "RADIUS Response: " +:+ code in
  if (0 <? Z.of_nat (size attributes)) then
    visit <- Range (map_to_list attributes) ;;
    ret (fold_left (fun out kv => out +:+ nl +:+ "  " +:+ fst kv +:+ ": " +:+ snd kv)
           visit (head +:+ nl +:+ "Attributes:"))
  else ret head.

(** [Executor.Run]: the result (an [interface{}], [nil] being [None])
    and the returned error. *)
Definition Run (ctx : Context) (step : TestStep lib)
  : Eff (option Result.t * option error) :=
  match Decode lib step with
  | inl err => ret (None, Some err)
  | inr e =>
    let e := defaults e in
    let result := Result.zero in
    start <- Now ;;
    match parseCode (Executor.Code e) with
    | None => ret (None, Some ("unsupported RADIUS code: " +:+ Executor.Code e))
    | Some code =>
      packet <- New code (Executor.Secret e) ;;
      visit <- Range (map_to_list (Executor.Attributes e)) ;;
      match addAttributes packet visit with
      | inl (attrName, err) =>
          let result :=
            Result.setErr ("failed to add attribute " +:+ attrName +:+ ": " +:+ err) result in
          ret (Some result, None)
      | inr packet =>
        let result :=
          Result.setRequest
            {[ "server" := Str (Executor.Server e);
               "code" := Str (Executor.Code e);
               "attributes" := StrMap (Executor.Attributes e) ]} result in
        let timeout := wrap64 (Executor.Timeout e * Second) in
        ctx <- WithTimeout ctx timeout ;;
        reply <- Exchange (ctx, packet, Executor.Server e) ;;
        match reply with
        | inl err =>
            let result := Result.setErr err result in
            elapsed <- Since start ;;
            let result := Result.setTimeSeconds elapsed result in
            ret (Some result, None)
        | inr response =>
            let result := Result.setCode (Code_String lib (RCode response)) result in
            let attributes := extract response in
            let result := Result.setAttributes attributes result in
            out <- systemout (Result.Code result) attributes ;;
            let result := Result.setSystemout out result in
            let result :=
              Result.setSystemoutJSON
                (Map {[ "code" := Str (Result.Code result);
                        "attributes" := Map (Str <$> attributes) ]}) result in
            elapsed <- Since start ;;
            let result := Result.setTimeSeconds elapsed result in
            ret (Some result, None)
        end
      end
    end
  end.
End Run.

End Radius.

(** * The DNS executor *)

Module Dns.

(** The record types of miekg/dns that [stringToQType] names. *)
Definition TypeA : Z := 1.
Definition TypeNS : Z := 2.
Definition TypeCNAME : Z := 5.
Definition TypeSOA : Z := 6.
Definition TypePTR : Z := 12.
Definition TypeMX : Z := 15.
Definition TypeTXT : Z := 16.
Definition TypeAAAA : Z := 28.
Definition TypeSRV : Z := 33.
Definition TypeANY : Z := 255.
Definition TypeCAA : Z := 257.

Definition ClassINET : Z := 1.

(** [dns.Question] *)
Record Question := { QName : string; Qtype : Z; Qclass : Z }.

(** [dns.RR_Header], the fields [rrToJSON] reads. *)
Record RR_Header := { Name : string; Rrtype : Z; Class : Z; Ttl : Z }.

(** The resource records: the concrete types that the type switch of
    [rrToJSON] tells apart, and every other type of record. *)
Inductive RData :=
  | A (ip : list Byte.byte)
  | AAAA (ip : list Byte.byte)
  | MX (Preference : Z) (Mx : string)
  | TXT (Txt : list string)
  | CNAME (Target : string)
  | NS (Ns : string)
  | PTR (Ptr : string)
  | SOA (Ns Mbox : string) (Serial Refresh Retry Expire Minttl : Z)
  | SRV (Priority Weight Port : Z) (Target : string)
  | CAA (Flag : Z) (Tag Value : string)
  | Other (rdata : string).

Record RR := { Header : RR_Header; Data : RData }.

(** [dns.Msg] *)
Record Msg := {
  Id : Z;
  Response : bool;
  Opcode : Z;
  Authoritative : bool;
  Truncated : bool;
  RecursionDesired : bool;
  RecursionAvailable : bool;
  Zero : bool;
  AuthenticatedData : bool;
  CheckingDisabled : bool;
  Rcode : Z;
  Questions : list Question;     (* the field [Question] *)
  Answer : list RR;
  Ns : list RR;
  Extra : list RR
}.

(** [new(dns.Msg)] with [SetQuestion(z, t)] applied, under the
    identifier [id] that [dns.Id()] drew, and [RecursionDesired] set. *)
Definition question (id : Z) (z : string) (t : Z) : Msg :=
  {| Id := id; Response := false; Opcode := 0; Authoritative := false;
     Truncated := false; RecursionDesired := true;
     RecursionAvailable := false; Zero := false;
     AuthenticatedData := false; CheckingDisabled := false; Rcode := 0;
     Questions := [ {| QName := z; Qtype := t; Qclass := ClassINET |} ];
     Answer := []; Ns := []; Extra := [] |}.

Module Executor.
Record t := {
  Server : string;
  Query : string;
  QType : string;
  Timeout : Z
}.
End Executor.

Module Result.
Record t := {
  Query : string;
  QType : string;
  Server : string;
  RCode : string;
  Message : option Any;          (* [interface{}], [nil] is [None] *)
  Systemout : string;
  SystemoutJSON : option Any;
  Systemerr : string;
  SystemerrJSON : option Any;
  Err : string;
  TimeSeconds : Duration    (* [elapsed.Seconds()], kept as the elapsed
                               [Duration]; the zero value is 0 *)
}.

(** [Result{Query: .., QType: .., Server: ..}] *)
Definition make (query qtype server : string) : t :=
  {| Query := query; QType := qtype; Server := server; RCode := "";
     Message := None; Systemout := ""; SystemoutJSON := None;
     Systemerr := ""; SystemerrJSON := None; Err := ""; TimeSeconds := 0 |}.

Definition zero : t := make "" "" "".

Definition setErr (v : string) (r : t) : t :=
  {| Query := Query r; QType := QType r; Server := Server r;
     RCode := RCode r; Message := Message r; Systemout := Systemout r;
     SystemoutJSON := SystemoutJSON r; Systemerr := Systemerr r;
     SystemerrJSON := SystemerrJSON r; Err := v;
     TimeSeconds := TimeSeconds r |}.

Definition setTimeSeconds (v : Duration) (r : t) : t :=
  {| Query := Query r; QType := QType r; Server := Server r;
     RCode := RCode r; Message := Message r; Systemout := Systemout r;
     SystemoutJSON := SystemoutJSON r; Systemerr := Systemerr r;
     SystemerrJSON := SystemerrJSON r; Err := Err r; TimeSeconds := v |}.

Definition setRCode (v : string) (r : t) : t :=
  {| Query := Query r; QType := QType r; Server := Server r;
     RCode := v; Message := Message r; Systemout := Systemout r;
     SystemoutJSON := SystemoutJSON r; Systemerr := Systemerr r;
     SystemerrJSON := SystemerrJSON r; Err := Err r;
     TimeSeconds := TimeSeconds r |}.

Definition setMessage (v : Any) (r : t) : t :=
  {| Query := Query r; QType := QType r; Server := Server r;
     RCode := RCode r; Message := Some v; Systemout := Systemout r;
     SystemoutJSON := SystemoutJSON r; Systemerr := Systemerr r;
     SystemerrJSON := SystemerrJSON r; Err := Err r;
     TimeSeconds := TimeSeconds r |}.

Definition setSystemoutJSON (v : Any) (r : t) : t :=
  {| Query := Query r; QType := QType r; Server := Server r;
     RCode := RCode r; Message := Message r; Systemout := Systemout r;
     SystemoutJSON := Some v; Systemerr := Systemerr r;
     SystemerrJSON := SystemerrJSON r; Err := Err r;
     TimeSeconds := TimeSeconds r |}.

Definition setSystemout (v : string) (r : t) : t :=
  {| Query := Query r; QType := QType r; Server := Server r;
     RCode := RCode r; Message := Message r; Systemout := v;
     SystemoutJSON := SystemoutJSON r; Systemerr := Systemerr r;
     SystemerrJSON := SystemerrJSON r; Err := Err r;
     TimeSeconds := TimeSeconds r |}.
End Result.

(** The libraries behind the executor. *)
Record Library := {
  TestStep : Type;                          (* venom.TestStep *)
  Decode : TestStep -> error + Executor.t;  (* mapstructure.Decode(step, &e),
                                               [e] the zero Executor *)
  Fqdn : string -> string;                  (* dns.Fqdn *)
  OpcodeToString : gmap Z string;           (* the name tables of miekg/dns *)
  RcodeToString : gmap Z string;
  TypeToString : gmap Z string;
  ClassToString : gmap Z string;
  RR_String : RR -> string;                 (* the method [String] of a record *)
  IP_String : list Byte.byte -> string;     (* net.IP.String *)
  Duration_String : Duration -> string      (* how [%v] prints a Duration *)
}.

(** Indexing a Go map of strings: the empty string for a missing key. *)
Definition index (m : gmap Z string) (k : Z) : string := default "" (m !! k).

(** One call of [client.ExchangeContext(ctx, m, server)], with the
    [Net] of the client, and its outcome. *)
Record Call := { Net : string; Ctx : Context; Sent : Msg; Addr : string }.
Definition Reply : Type := error + (Msg * Duration).

(** [stringToQType] converts DNS record type string to dns.Type. *)
Definition stringToQType (qtype : string) : Z * option error :=
  switch qtype [
    ("A", (TypeA, None));
    ("AAAA", (TypeAAAA, None));
    ("MX", (TypeMX, None));
    ("TXT", (TypeTXT, None));
    ("CNAME", (TypeCNAME, None));
    ("NS", (TypeNS, None));
    ("PTR", (TypePTR, None));
    ("SOA", (TypeSOA, None));
    ("SRV", (TypeSRV, None));
    ("CAA", (TypeCAA, None));
    ("ANY", (TypeANY, None))
  ] (0, Some ("unsupported DNS record type: " +:+ qtype)).

Section Run.
Variable lib : Library.

Abbreviation Eff := (M Call Reply).

(** [rrToJSON] converts a DNS resource record to JSON. *)
Definition rrToJSON (rr : RR) : gmap string Any :=
  let h := Header rr in
  let result : gmap string Any :=
    {[ "name" := Str (Name h);
       "type" := Str (index (TypeToString lib) (Rrtype h));
       "class" := Str (index (ClassToString lib) (Class h));
       "ttl" := Num (Ttl h) ]} in
  let result := <["value" := Str (RR_String lib rr)]> result in
  match Data rr with
  | A ip => <["address" := Str (IP_String lib ip)]> result
  | AAAA ip => <["address" := Str (IP_String lib ip)]> result
  | MX preference mx =>
      <["mx" := Str mx]> (<["preference" := Num preference]> result)
  | TXT txt => <["txt" := Strs txt]> result
  | CNAME target => <["target" := Str target]> result
  | NS ns => <["ns" := Str ns]> result
  | PTR ptr => <["ptr" := Str ptr]> result
  | SOA ns mbox serial refresh retry expire minttl =>
      <["minttl" := Num minttl]> (<["expire" := Num expire]>
      (<["retry" := Num retry]> (<["refresh" := Num refresh]>
      (<["serial" := Num serial]> (<["mbox" := Str mbox]>
      (<["ns" := Str ns]> result))))))
  | SRV priority weight port target =>
      <["target" := Str target]> (<["port" := Num port]>
      (<["weight" := Num weight]> (<["priority" := Num priority]> result)))
  | CAA flag tag value =>
      <["value" := Str value]> (<["tag" := Str tag]>
      (<["flag" := Num flag]> result))
  | Other _ => result
  end.

(** [dnsMessageToJSON] converts a DNS message to a JSON-serializable
    structure; the second component is the returned error. *)
Definition dnsMessageToJSON (msg : Msg) : gmap string Any * option error :=
  let result : gmap string Any := ∅ in
  let result := <["id" := Num (Id msg)]> result in
  let result := <["response" := Bool (Response msg)]> result in
  let result := <["opcode" := Str (index (OpcodeToString lib) (Opcode msg))]> result in
  let result := <["authoritative" := Bool (Authoritative msg)]> result in
  let result := <["truncated" := Bool (Truncated msg)]> result in
  let result := <["recursion_desired" := Bool (RecursionDesired msg)]> result in
  let result := <["recursion_available" := Bool (RecursionAvailable msg)]> result in
  let result := <["zero" := Bool (Zero msg)]> result in
  let result := <["authenticated_data" := Bool (AuthenticatedData msg)]> result in
  let result := <["checking_disabled" := Bool (CheckingDisabled msg)]> result in
  let result := <["rcode" := Str (index (RcodeToString lib) (Rcode msg))]> result in
  let questions :=
    fold_left (fun questions q =>
        questions ++ [Map {[ "name" := Str (QName q);
                             "type" := Str (index (TypeToString lib) (Qtype q));
                             "class" := Str (index (ClassToString lib) (Qclass q)) ]}])
      (Questions msg) [] in
  let result := <["question" := Seq questions]> result in
  let section (rrs : list RR) :=
    fold_left (fun out rr => out ++ [Map (rrToJSON rr)]) rrs [] in
  let result := <["answer" := Seq (section (Answer msg))]> result in
  let result := <["authority" := Seq (section (Ns msg))]> result in
  let result := <["additional" := Seq (section (Extra msg))]> result in
  (result, None).

(** The "Set defaults" block of [Run]. *)
Definition defaults (e : Executor.t) : Executor.t :=
  {| Executor.Server := Executor.Server e;
     Executor.Query := Executor.Query e;
     Executor.QType :=
       if String.eqb (Executor.QType e) "" then "A" else Executor.QType e;
     Executor.Timeout :=
       if Executor.Timeout e =? 0 then 5 else Executor.Timeout e |}.

(** [m := new(dns.Msg); m.SetQuestion(dns.Fqdn(query), qType);
    m.RecursionDesired = true] *)
Definition newQuestion (query : string) (qType : Z) : Eff Msg :=
  id <- Draw ;;
  ret (question id (Fqdn lib query) qType).

(** The block "If response is truncated, retry with TCP": the result,
    the working response and its round-trip time after it. *)
Definition retry (ctx : Context) (e : Executor.t) (qType : Z)
    (result : Result.t) (response : Msg) (rtt : Duration)
  : Eff (Result.t * Msg * Duration) :=
  if Truncated response then
    mTCP <- newQuestion (Executor.Query e) qType ;;
    tcp <- Exchange {| Net := "tcp"; Ctx := ctx; Sent := mTCP;
                       Addr := Executor.Server e |} ;;
    match tcp with
    | inl tcpErr =>
        ret (Result.setErr
               ("UDP response truncated, TCP retry failed: " +:+ tcpErr) result,
             response, rtt)
    | inr (tcpResponse, tcpRtt) =>
        if Truncated tcpResponse then
          ret (Result.setErr
                 "UDP response truncated, TCP retry also returned truncated response"
                 result,
               response, rtt)
        else ret (result, tcpResponse, tcpRtt)
    end
  else ret (result, response, rtt).

(** The "Build human-readable system output" block. *)
Definition systemout (e : Executor.t) (rcode : string) (rtt : Duration)
    (response : Msg) : string :=
  let out :=
    "DNS Query: " +:+ Executor.Query e +:+ " " +:+ Executor.QType e +:+ nl
    +:+ "Server: " +:+ Executor.Server e +:+ nl
    +:+ "RCode: " +:+ rcode +:+ nl
    +:+ "Response Time: " +:+ Duration_String lib rtt +:+ nl in
  if 0 <? Z.of_nat (length (Answer response)) then
    fold_left (fun out rr => out +:+ "  " +:+ RR_String lib rr +:+ nl)
      (Answer response) (out +:+ "Answers:" +:+ nl)
  else out.

(** The end of [Run], "Convert full DNS message to JSON structure" and
    what follows it, from the outcome [converted] of [dnsMessageToJSON]
    on the working response. *)
Definition convert (e : Executor.t) (result : Result.t) (response : Msg)
    (rtt : Duration) (converted : gmap string Any * option error)
  : option Result.t * option error :=
  match converted with
  | (_, Some err) =>
      let result :=
        Result.setErr ("failed to convert DNS message to JSON: " +:+ err) result in
      (Some result, None)
  | (msgJSON, None) =>
      let result := Result.setMessage (Map msgJSON) result in
      let result := Result.setSystemoutJSON (Map msgJSON) result in
      let result :=
        Result.setSystemout (systemout e (Result.RCode result) rtt response) result in
      (Some result, None)
  end.

(** [Executor.Run]: the result (an [interface{}], [nil] being [None])
    and the returned error. *)
Definition Run (ctx : Context) (step : TestStep lib)
  : Eff (option Result.t * option error) :=
  match Decode lib step with
  | inl err => ret (None, Some err)
  | inr e =>
    if String.eqb (Executor.Server e) "" then
      ret (None, Some "server is mandatory for DNS executor")
    else
    let e := defaults e in
    let result :=
      Result.make (Executor.Query e) (Executor.QType e) (Executor.Server e) in
    start <- Now ;;
    match stringToQType (Executor.QType e) with
    | (_, Some err) =>
        let result := Result.setErr err result in
        elapsed <- Since start ;;
        let result := Result.setTimeSeconds elapsed result in
        ret (Some result, None)
    | (qType, None) =>
      m <- newQuestion (Executor.Query e) qType ;;
      let timeout := wrap64 (Executor.Timeout e * Second) in
      ctx <- WithTimeout ctx timeout ;;
      udp <- Exchange {| Net := "udp"; Ctx := ctx; Sent := m;
                         Addr := Executor.Server e |} ;;
      match udp with
      | inl err =>
          let result := Result.setErr err result in
          elapsed <- Since start ;;
          let result := Result.setTimeSeconds elapsed result in
          ret (Some result, None)
      | inr (response, rtt) =>
          working <- retry ctx e qType result response rtt ;;
          let '(result, response, rtt) := working in
          elapsed <- Since start ;;
          let result := Result.setTimeSeconds elapsed result in
          let result :=
            Result.setRCode (index (RcodeToString lib) (Rcode response)) result in
          ret (convert e result response rtt (dnsMessageToJSON response))
      end
    end
  end.
End Run.

End Dns.

(** * The specification's vocabulary

    The tables and value kinds that the specification names, written
    as data; the lemmas below relate each to the code above. *)

Module Spec.
Import Radius.

(** The 14 packet-code names. *)
Definition codeNames : list string :=
  [ "Access-Request"; "Access-Accept"; "Access-Reject"; "Access-Challenge";
    "Accounting-Request"; "Accounting-Response";
    "Status-Server"; "Status-Client";
    "Disconnect-Request"; "Disconnect-ACK"; "Disconnect-NAK";
    "CoA-Request"; "CoA-ACK"; "CoA-NAK" ].

(** The 11 record-type names. *)
Definition qtypeNames : list string :=
  [ "A"; "AAAA"; "MX"; "TXT"; "CNAME"; "NS"; "PTR"; "SOA"; "SRV"; "CAA"; "ANY" ].

(** The value kinds of an attribute: raw string, IP address, integer,
    or name-to-code enumeration with its closed vocabulary.  Integer and
    enumeration kinds carry the label their error messages print. *)
Inductive Kind :=
  | RawString (a : Attr)
  | IPAddress (a : Attr)
  | Int (a : Attr) (label : string)
  | Enum (a : Attr) (label : string) (vocabulary : list (string * Z)).

(** The attribute table: every supported name with its kind. *)
Definition attributeTable : list (string * Kind) :=
  [ ("User-Name", RawString UserName);
    ("User-Password", RawString UserPassword);
    ("NAS-IP-Address", IPAddress NASIPAddress);
    ("NAS-Port", Int NASPort "NAS-Port");
    ("Service-Type", Enum ServiceType "Service-Type" [
       ("Login-User", 1); ("Framed-User", 2); ("Callback-Login-User", 3);
       ("Callback-Framed-User", 4); ("Outbound-User", 5);
       ("Administrative-User", 6); ("NAS-Prompt-User", 7);
       ("Call-Check-User", 8); ("Callback-Administrative-User", 9)]);
    ("Framed-Protocol", Enum FramedProtocol "Framed-Protocol" [
       ("PPP", 1); ("SLIP", 2); ("ARAP", 3); ("Gandalf", 4);
       ("Xylogics", 5); ("X.75-Synchronous", 6)]);
    ("Framed-IP-Address", IPAddress FramedIPAddress);
    ("Framed-IP-Netmask", IPAddress FramedIPNetmask);
    ("Framed-Routing", Enum FramedRouting "Framed-Routing" [
       ("None", 0); ("Broadcast", 1); ("Listen", 2); ("Broadcast-Listen", 3)]);
    ("Filter-Id", RawString FilterID);
    ("Framed-MTU", Int FramedMTU "Framed-MTU");
    ("Reply-Message", RawString ReplyMessage);
    ("Callback-Number", RawString CallbackNumber);
    ("Callback-Id", RawString CallbackID);
    ("Framed-Route", RawString FramedRoute);
    ("Framed-IPX-Network", IPAddress FramedIPXNetwork);
    ("State", RawString State);
    ("Class", RawString Class);
    ("Session-Timeout", Int SessionTimeout "Session-Timeout");
    ("Idle-Timeout", Int IdleTimeout "Idle-Timeout");
    ("Termination-Action", Enum TerminationAction "Termination-Action" [
       ("Default", 0); ("RADIUS-Request", 1)]);
    ("Called-Station-Id", RawString CalledStationID);
    ("Calling-Station-Id", RawString CallingStationID);
    ("NAS-Identifier", RawString NASIdentifier);
    ("Proxy-State", RawString ProxyState);
    ("Login-LAT-Service", RawString LoginLATService);
    ("Login-LAT-Node", RawString LoginLATNode);
    ("Login-LAT-Group", RawString LoginLATGroup);
    ("Framed-AppleTalk-Zone", RawString FramedAppleTalkZone);
    ("Acct-Status-Type", Enum AcctStatusType "Acct-Status-Type" [
       ("Start", 1); ("Stop", 2); ("Interim-Update", 3);
       ("Accounting-On", 7); ("Accounting-Off", 8)]);
    ("Acct-Session-Id", RawString AcctSessionID);
    ("Acct-Authentic", Enum AcctAuthentic "Acct-Authentic" [
       ("RADIUS", 1); ("Local", 2); ("Remote", 3)]);
    ("Acct-Session-Time", Int AcctSessionTime "Acct-Session-Time");
    ("Acct-Input-Octets", Int AcctInputOctets "Acct-Input-Octets");
    ("Acct-Output-Octets", Int AcctOutputOctets "Acct-Output-Octets");
    ("Acct-Input-Packets", Int AcctInputPackets "Acct-Input-Packets");
    ("Acct-Output-Packets", Int AcctOutputPackets "Acct-Output-Packets");
    ("Acct-Terminate-Cause", Enum AcctTerminateCause "Acct-Terminate-Cause" [
       ("User-Request", 1); ("Lost-Carrier", 2); ("Lost-Service", 3);
       ("Idle-Timeout", 4); ("Session-Timeout", 5); ("Admin-Reset", 6);
       ("Admin-Reboot", 7); ("Port-Error", 8); ("NAS-Error", 9);
       ("NAS-Request", 10); ("NAS-Reboot", 11); ("Port-Unneeded", 12);
       ("Port-Preempted", 13); ("Port-Suspended", 14);
       ("Service-Unavailable", 15); ("Callback", 16); ("User-Error", 17);
       ("Host-Request", 18)]);
    ("Acct-Multi-Session-Id", RawString AcctMultiSessionID);
    ("Acct-Link-Count", Int AcctLinkCount "Acct-Link-Count") ].

Definition attributeNames : list string := map fst attributeTable.

(** A table as the branches of a [switch] whose [default:] is [None]. *)
Definition branches {A : Type} (table : list (string * A)) : list (string * option A) :=
  map (fun entry => (fst entry, Some (snd entry))) table.

Definition kindOf (name : string) : option Kind :=
  switch name (branches attributeTable) None.

(** What the table prescribes for one attribute: the packet with the
    attribute added, or the error. *)
Definition encode (packet : Packet) (name value : string) (kind : option Kind)
  : Packet * option error :=
  match kind with
  | Some (RawString a) => (Set_ a (Text value) packet, None)
  | Some (IPAddress a) => (Set_ a (Bytes (bytes value)) packet, None)
  | Some (Int a label) =>
      match Atoi value with
      | Some n => (Set_ a (Integer (uint32 n)) packet, None)
      | None => (packet, Some ("invalid " +:+ label +:+ " value: " +:+ value))
      end
  | Some (Enum a label vocabulary) =>
      match switch value (branches vocabulary) None with
      | Some n => (Set_ a (Integer n) packet, None)
      | None => (packet, Some ("unsupported " +:+ label +:+ ": " +:+ value))
      end
  | None => (packet, Some ("unsupported attribute: " +:+ name))
  end.

(** The three ways in which an attribute fails to encode: its name is
    unsupported, its value is outside the closed vocabulary of its
    enumeration, or it is not a number where an integer is required. *)
Inductive failing (name value : string) : Prop :=
  | unsupported_name :
      ~ In name attributeNames -> failing name value
  | outside_vocabulary a label vocabulary :
      kindOf name = Some (Enum a label vocabulary) ->
      ~ In value (map fst vocabulary) -> failing name value
  | not_a_number a label :
      kindOf name = Some (Int a label) ->
      Atoi value = None -> failing name value.

(** The error, if any, with which [addAttribute] refuses an attribute
    (the packet it is added to plays no part, see
    [addAttribute_error_packet]). *)
Definition refusal (name value : string) : option error :=
  snd (addAttribute {| PCode := 0; PSecret := ""; PNonce := 0; Sets := [] |} name value).

(** The first attribute, in visiting order, that [addAttribute]
    refuses, with its error. *)
Fixpoint firstRefusal (visit : list (string * string)) : option (string * error) :=
  match visit with
  | [] => None
  | (name, value) :: rest =>
      match refusal name value with
      | Some err => Some (name, err)
      | None => firstRefusal rest
      end
  end.

(** Dotted-decimal notation parsed as 4 bytes: four decimal numbers of
    at most 255, separated by dots. *)
Fixpoint fields (s : string) (cur : string) : list string :=
  match s with
  | EmptyString => [cur]
  | String c s' =>
      if Ascii.eqb c "." then cur :: fields s' ""
      else fields s' (cur +:+ String c "")
  end.

Definition octet (s : string) : option Byte.byte :=
  match s with
  | EmptyString => None
  | _ =>
      match digits s 0 with
      | Some n => if n <=? 255 then Byte.of_N (Z.to_N n) else None
      | None => None
      end
  end.

Definition dottedDecimal (s : string) : option (list Byte.byte) :=
  match fields s "" with
  | [a; b; c; d] =>
      match octet a, octet b, octet c, octet d with
      | Some a, Some b, Some c, Some d => Some [a; b; c; d]
      | _, _, _, _ => None
      end
  | _ => None
  end.

(** The fully-resolved request: server, code and attribute map. *)
Definition request (e : Radius.Executor.t) : gmap string Any :=
  {[ "server" := Str (Radius.Executor.Server e);
     "code" := Str (Radius.Executor.Code e);
     "attributes" := StrMap (Radius.Executor.Attributes e) ]}.

(** The result that reflects a DNS response: its code, its tree as
    [Message] and [SystemoutJSON], and the summary with the round-trip
    time, next to the error text and elapsed time given. *)
Definition answer (lib : Dns.Library) (e : Dns.Executor.t) (err : string)
    (elapsed : Duration) (response : Dns.Msg) (rtt : Duration) : Dns.Result.t :=
  let rcode := Dns.index (Dns.RcodeToString lib) (Dns.Rcode response) in
  let tree := Map (fst (Dns.dnsMessageToJSON lib response)) in
  {| Dns.Result.Query := Dns.Executor.Query e;
     Dns.Result.QType := Dns.Executor.QType e;
     Dns.Result.Server := Dns.Executor.Server e;
     Dns.Result.RCode := rcode;
     Dns.Result.Message := Some tree;
     Dns.Result.Systemout := Dns.systemout lib e rcode rtt response;
     Dns.Result.SystemoutJSON := Some tree;
     Dns.Result.Systemerr := "";
     Dns.Result.SystemerrJSON := None;
     Dns.Result.Err := err;
     Dns.Result.TimeSeconds := elapsed |}.

(** The soft failure of the DNS executor before any response. *)
Definition failure (e : Dns.Executor.t) (err : string) (elapsed : Duration) : Dns.Result.t :=
  Dns.Result.setTimeSeconds elapsed
    (Dns.Result.setErr err
       (Dns.Result.make (Dns.Executor.Query e) (Dns.Executor.QType e)
          (Dns.Executor.Server e))).

(** The returned error that the contract allows the RADIUS executor:
    the decoding error, or the unsupported packet-code name. *)
Definition radiusFatal (lib : Radius.Library) (step : Radius.TestStep lib) : option error :=
  match Radius.Decode lib step with
  | inl err => Some err
  | inr e =>
      let code := Radius.Executor.Code (Radius.defaults e) in
      if bool_decide (In code codeNames) then None
      else Some ("unsupported RADIUS code: " +:+ code)
  end.

(** The returned error that the contract allows the DNS executor: the
    decoding error, or the missing server. *)
Definition dnsFatal (lib : Dns.Library) (step : Dns.TestStep lib) : option error :=
  match Dns.Decode lib step with
  | inl err => Some err
  | inr e =>
      if String.eqb (Dns.Executor.Server e) "" then
        Some "server is mandatory for DNS executor"
      else None
  end.

End Spec.

(** * Sample descriptors, libraries and worlds

    Concrete inputs on which the executors are evaluated below.  The
    descriptors are those of the packages' tests. *)

Module Sample.

(** A decoder for descriptors whose keys are the lower-case field names:
    a missing key leaves the zero value, a value of another type than
    the field's is an error. *)
Definition text (step : gmap string Any) (key : string) : error + string :=
  match step !! key with
  | None => inr ""
  | Some (Str s) => inr s
  | Some _ => inl ("'" +:+ key +:+ "' expected type 'string'")
  end.

Definition number (step : gmap string Any) (key : string) : error + Z :=
  match step !! key with
  | None => inr 0
  | Some (Num n) => inr n
  | Some _ => inl ("'" +:+ key +:+ "' expected type 'int'")
  end.

Definition strings (step : gmap string Any) (key : string) : error + gmap string string :=
  match step !! key with
  | None => inr ∅
  | Some (StrMap m) => inr m
  | Some _ => inl ("'" +:+ key +:+ "' expected a map")
  end.

Definition radiusDecode (step : gmap string Any) : error + Radius.Executor.t :=
  match text step "server", text step "secret", text step "code",
        number step "timeout", strings step "attributes" with
  | inr server, inr secret, inr code, inr timeout, inr attributes =>
      inr {| Radius.Executor.Server := server; Radius.Executor.Secret := secret;
             Radius.Executor.Code := code; Radius.Executor.Timeout := timeout;
             Radius.Executor.Attributes := attributes |}
  | inl err, _, _, _, _ | _, inl err, _, _, _ | _, _, inl err, _, _
  | _, _, _, inl err, _ | _, _, _, _, inl err => inl err
  end.

Definition dnsDecode (step : gmap string Any) : error + Dns.Executor.t :=
  match text step "server", text step "query", text step "qtype",
        number step "timeout" with
  | inr server, inr query, inr qtype, inr timeout =>
      inr {| Dns.Executor.Server := server; Dns.Executor.Query := query;
             Dns.Executor.QType := qtype; Dns.Executor.Timeout := timeout |}
  | inl err, _, _, _ | _, inl err, _, _ | _, _, inl err, _
  | _, _, _, inl err => inl err
  end.

(** The last character of a string, as a string. *)
Fixpoint last (s : string) : string :=
  match s with
  | EmptyString => ""
  | String c EmptyString => String c ""
  | String _ s' => last s'
  end.

Definition radiusLib : Radius.Library :=
  {| Radius.TestStep := gmap string Any;
     Radius.Decode := radiusDecode;
     Radius.Code_String := fun code =>
       if code =? 2 then "Access-Accept"
       else if code =? 3 then "Access-Reject"
       else "Code(" +:+ pretty code +:+ ")" |}.

Definition dnsLib : Dns.Library :=
  {| Dns.TestStep := gmap string Any;
     Dns.Decode := dnsDecode;
     Dns.Fqdn := fun s => if String.eqb (last s) "." then s else s +:+ ".";
     Dns.OpcodeToString := {[ 0 := "QUERY" ]};
     Dns.RcodeToString := {[ 0 := "NOERROR"; 2 := "SERVFAIL"; 3 := "NXDOMAIN" ]};
     Dns.TypeToString := {[ 1 := "A"; 15 := "MX"; 16 := "TXT" ]};
     Dns.ClassToString := {[ 1 := "IN" ]};
     Dns.RR_String := fun rr => Dns.Name (Dns.Header rr);
     Dns.IP_String := fun _ => "192.0.2.1";
     Dns.Duration_String := fun d => pretty d +:+ "ns" |}.

(** A world in which the clock advances by 7ns between readings and the
    server answers [reply] to the [n]-th exchange. *)
Definition world {Call Reply : Type} (reply : nat -> Reply) : World Call Reply :=
  {| clock := fun n => 1000 + 7 * Z.of_nat n;
     wire := reply;
     random := fun n => 40 + Z.of_nat n;
     order := fun m => m;
     sent := [] |}.

(** No RADIUS server is listening. *)
Definition silent : World Radius.Call Radius.Reply :=
  world (fun _ => inl "read udp 127.0.0.1:1812: i/o timeout").

(** The descriptor of [TestRadiusExecutorInvalidAttribute]. *)
Definition invalidAttribute : gmap string Any :=
  {[ "attributes" := StrMap {[ "Invalid-Attribute" := "value" ]} ]}.

(** The attributes of [TestRadiusExecutor]. *)
Definition accessRequest : gmap string Any :=
  {[ "server" := Str "localhost:1812"; "secret" := Str "secret";
     "code" := Str "Access-Request"; "timeout" := Num 5;
     "attributes" := StrMap {[ "User-Name" := "testuser";
                               "User-Password" := "testpass";
                               "NAS-IP-Address" := "192.168.1.1" ]} ]}.

(** The descriptor of [TestRadiusExecutorInvalidCode]. *)
Definition invalidCode : gmap string Any := {[ "code" := Str "Invalid-Code" ]}.

(** The descriptors of [TestDNSExecutorDefaults],
    [TestDNSExecutorMissingServer] and [TestDNSExecutorInvalidType]. *)
Definition dnsDefaults : gmap string Any :=
  {[ "server" := Str "8.8.8.8:53"; "query" := Str "example.com" ]}.

Definition missingServer : gmap string Any :=
  {[ "query" := Str "example.com"; "qtype" := Str "A" ]}.

Definition invalidType : gmap string Any :=
  {[ "server" := Str "8.8.8.8:53"; "query" := Str "example.com";
     "qtype" := Str "INVALID" ]}.

(** DNS responses to the question for "example.com." *)
Definition response (id : Z) (truncated : bool) (rcode : Z) (answer : list Dns.RR) : Dns.Msg :=
  {| Dns.Id := id; Dns.Response := true; Dns.Opcode := 0;
     Dns.Authoritative := false; Dns.Truncated := truncated;
     Dns.RecursionDesired := true; Dns.RecursionAvailable := true;
     Dns.Zero := false; Dns.AuthenticatedData := false;
     Dns.CheckingDisabled := false; Dns.Rcode := rcode;
     Dns.Questions := [ {| Dns.QName := "example.com."; Dns.Qtype := 1; Dns.Qclass := 1 |} ];
     Dns.Answer := answer; Dns.Ns := []; Dns.Extra := [] |}.

Definition address : Dns.RR :=
  {| Dns.Header := {| Dns.Name := "example.com."; Dns.Rrtype := 1;
                      Dns.Class := 1; Dns.Ttl := 3600 |};
     Dns.Data := Dns.A [Byte.xc0; Byte.x00; Byte.x02; Byte.x01] |}.

Definition udpTruncated : Dns.Msg := response 40 true 0 [].
Definition tcpTruncated : Dns.Msg := response 41 true 2 [].
Definition tcpComplete : Dns.Msg := response 41 false 0 [address].

(** The DNS server does not answer. *)
Definition unreachable : World Dns.Call Dns.Reply :=
  world (fun _ => inl "read udp 8.8.8.8:53: i/o timeout").

(** The UDP response is truncated and the TCP retry fails. *)
Definition truncatedThenError : World Dns.Call Dns.Reply :=
  world (fun n => match n with
                  | O => inr (udpTruncated, 3000000)
                  | _ => inl "dial tcp 8.8.8.8:53: connection refused"
                  end).

(** The UDP response is truncated and so is the TCP response. *)
Definition truncatedTwice : World Dns.Call Dns.Reply :=
  world (fun n => match n with
                  | O => inr (udpTruncated, 3000000)
                  | _ => inr (tcpTruncated, 20000000)
                  end).

(** The UDP response is truncated and the TCP response is complete. *)
Definition truncatedThenComplete : World Dns.Call Dns.Reply :=
  world (fun n => match n with
                  | O => inr (udpTruncated, 3000000)
                  | _ => inr (tcpComplete, 20000000)
                  end).

(** The UDP response is complete. *)
Definition answered : World Dns.Call Dns.Reply :=
  world (fun _ => inr (response 40 false 0 [address], 3000000)).

End Sample.

(** * Views of the attribute table

    What a table entry and a call of [addAttribute] contribute to a
    packet, for the further properties at the end. *)

Module View.
(** The attribute that a kind of the table sets. *)
Definition attrOf (kind : Spec.Kind) : Radius.Attr :=
  match kind with
  | Spec.RawString a | Spec.IPAddress a | Spec.Int a _ | Spec.Enum a _ _ => a
  end.

(** The setter calls that [addAttribute] makes for one attribute: one
    call, or none when it refuses the attribute. *)
Definition added (name value : string) : list (Radius.Attr * Radius.Value) :=
  Radius.Sets
    (fst (Radius.addAttribute
            {| Radius.PCode := 0; Radius.PSecret := ""; Radius.PNonce := 0;
               Radius.Sets := [] |} name value)).

#[global] Instance Attr_eq_dec : EqDecision Radius.Attr.
Proof. solve_decision. Defined.
End View.

(** * Properties *)

(** ** The [switch] statement *)

Section Switch.
Context {A : Type}.

Lemma switch_map {B : Type} (f : A -> B) x (cases : list (string * A)) d :
  switch x (map (fun c => (fst c, f (snd c))) cases) (f d) = f (switch x cases d).
Proof.
  induction cases as [|[label branch] cases IH]; simpl; [ reflexivity |].
  destruct (String.eqb x label); [ reflexivity | exact IH ].
Qed.

Lemma switch_default x (cases : list (string * A)) d :
  ~ In x (map fst cases) -> switch x cases d = d.
Proof.
  induction cases as [|[label branch] cases IH]; simpl; intros Hx; [ reflexivity |].
  destruct (String.eqb_spec x label) as [->|_]; [ tauto |].
  apply IH. tauto.
Qed.

Lemma switch_branches_None x (table : list (string * A)) :
  switch x (Spec.branches table) None = None <-> ~ In x (map fst table).
Proof.
  induction table as [|[label a] table IH]; simpl; [ tauto |].
  destruct (String.eqb_spec x label) as [->|Hne].
  - split; [ discriminate | tauto ].
  - rewrite IH. split; [ intros Hx [Heq|Hin]; [ congruence | tauto ] | tauto ].
Qed.
End Switch.

(** ** The RADIUS attribute table *)

(** [addAttribute] does what the attribute table prescribes. *)
Lemma addAttribute_table packet name value :
  Radius.addAttribute packet name value
  = Spec.encode packet name value (Spec.kindOf name).
Proof.
  unfold Spec.kindOf, Spec.branches.
  rewrite <- (switch_map (fun k => Spec.encode packet name value k)).
  reflexivity.
Qed.

(** Whether an attribute is refused does not depend on the packet. *)
Lemma addAttribute_error_packet p q name value :
  snd (Radius.addAttribute p name value) = snd (Radius.addAttribute q name value).
Proof.
  rewrite !addAttribute_table.
  destruct (Spec.kindOf name) as [[a|a|a label|a label vocabulary]|]; simpl;
    try reflexivity.
  - destruct (Atoi value); reflexivity.
  - destruct (switch value _ None); reflexivity.
Qed.

(** A refused attribute leaves the packet as it was. *)
Lemma addAttribute_refused_packet p name value err :
  snd (Radius.addAttribute p name value) = Some err ->
  fst (Radius.addAttribute p name value) = p.
Proof.
  rewrite addAttribute_table.
  destruct (Spec.kindOf name) as [[a|a|a label|a label vocabulary]|]; simpl;
    try discriminate; try reflexivity.
  - destruct (Atoi value); [ discriminate | reflexivity ].
  - destruct (switch value _ None); [ discriminate | reflexivity ].
Qed.

Lemma kindOf_None name :
  Spec.kindOf name = None <-> ~ In name Spec.attributeNames.
Proof. apply switch_branches_None. Qed.

(** An attribute is refused exactly when it fails in one of the three
    ways of [Spec.failing]. *)
Lemma refusal_failing name value :
  Spec.refusal name value <> None <-> Spec.failing name value.
Proof.
  unfold Spec.refusal. rewrite addAttribute_table. split.
  - destruct (Spec.kindOf name) as [[a|a|a label|a label vocabulary]|] eqn:K;
      simpl; try congruence.
    + destruct (Atoi value) eqn:N; [ simpl; congruence |].
      intros _. eapply Spec.not_a_number; eassumption.
    + destruct (switch value _ None) eqn:V; [ simpl; congruence |].
      intros _. eapply Spec.outside_vocabulary; [ eassumption |].
      apply switch_branches_None. exact V.
    + intros _. apply Spec.unsupported_name. apply kindOf_None. exact K.
  - intros [Hname | a label vocabulary K Hvalue | a label K Hvalue].
    + apply kindOf_None in Hname. rewrite Hname. simpl. discriminate.
    + rewrite K. simpl.
      apply switch_branches_None in Hvalue. rewrite Hvalue. simpl. discriminate.
    + rewrite K. simpl. rewrite Hvalue. simpl. discriminate.
Qed.

(** The error of a refused attribute names the attribute or its value. *)
Lemma refusal_unsupported name value :
  ~ In name Spec.attributeNames ->
  Spec.refusal name value = Some ("unsupported attribute: " +:+ name).
Proof.
  intros Hname. unfold Spec.refusal. rewrite addAttribute_table.
  apply kindOf_None in Hname. rewrite Hname. reflexivity.
Qed.

(** The loop stops at the first refused attribute. *)
Lemma addAttributes_firstRefusal packet visit :
  match Radius.addAttributes packet visit with
  | inl failure => Spec.firstRefusal visit = Some failure
  | inr _ => Spec.firstRefusal visit = None
  end.
Proof.
  revert packet. induction visit as [|[name value] rest IH]; intros packet; simpl.
  - reflexivity.
  - unfold Spec.refusal.
    rewrite (addAttribute_error_packet _ packet).
    destruct (Radius.addAttribute packet name value) as [packet' [err|]]; simpl.
    + reflexivity.
    + apply IH.
Qed.

Lemma firstRefusal_split visit name err :
  Spec.firstRefusal visit = Some (name, err) ->
  exists pre value post,
    visit = pre ++ (name, value) :: post
    /\ Forall (fun kv => Spec.refusal (fst kv) (snd kv) = None) pre
    /\ Spec.refusal name value = Some err.
Proof.
  induction visit as [|[n v] rest IH]; simpl; [ discriminate |].
  destruct (Spec.refusal n v) as [e|] eqn:R.
  - intros [= <- <-]. exists [], v, rest. by repeat split.
  - intros Hrest. destruct (IH Hrest) as (pre & value & post & -> & Hpre & Hr).
    exists ((n, v) :: pre), value, post. repeat split; [ | exact Hr ].
    constructor; [ exact R | exact Hpre ].
Qed.

Lemma firstRefusal_app pre name value post err :
  Forall (fun kv => Spec.refusal (fst kv) (snd kv) = None) pre ->
  Spec.refusal name value = Some err ->
  Spec.firstRefusal (pre ++ (name, value) :: post) = Some (name, err).
Proof.
  intros Hpre Hr. induction Hpre as [|[n v] pre Hn _ IH]; simpl.
  - by rewrite Hr.
  - simpl in Hn. by rewrite Hn.
Qed.

Lemma firstRefusal_None visit :
  Spec.firstRefusal visit = None <->
  Forall (fun kv => Spec.refusal (fst kv) (snd kv) = None) visit.
Proof.
  induction visit as [|[n v] rest IH]; simpl.
  - split; [ constructor | reflexivity ].
  - destruct (Spec.refusal n v) eqn:R.
    + split; [ discriminate | ]. intros H. inversion_clear H. simpl in *. congruence.
    + rewrite IH. split; [ by constructor | ]. intros H. by inversion_clear H.
Qed.

(** ** The name tables of [Run] *)

Lemma parseCode_None code :
  Radius.parseCode code = None <-> ~ In code Spec.codeNames.
Proof.
  unfold Radius.parseCode. split.
  - intros H Hin. simpl in Hin.
    repeat (destruct Hin as [<-|Hin]; [ vm_compute in H; discriminate |]).
    exact Hin.
  - intros H. apply switch_default. intros Hin. apply H.
    simpl in Hin |- *. intuition.
Qed.

Lemma stringToQType_supported qtype :
  snd (Dns.stringToQType qtype) = None <-> In qtype Spec.qtypeNames.
Proof.
  unfold Dns.stringToQType. split.
  - intros H. destruct (In_dec string_dec qtype Spec.qtypeNames) as [Hin|Hout];
      [ exact Hin |].
    rewrite switch_default in H; [ discriminate |].
    intros Hin. apply Hout. simpl in Hin |- *. intuition.
  - intros Hin. simpl in Hin.
    repeat (destruct Hin as [<-|Hin]; [ reflexivity |]).
    destruct Hin.
Qed.

Lemma stringToQType_unsupported qtype :
  ~ In qtype Spec.qtypeNames ->
  Dns.stringToQType qtype = (0, Some ("unsupported DNS record type: " +:+ qtype)).
Proof.
  intros Hout. unfold Dns.stringToQType. apply switch_default.
  intros Hin. apply Hout. simpl in Hin |- *. intuition.
Qed.

(** ** The paths of the RADIUS [Run] *)

Ltac run :=
  cbv beta iota zeta delta
    [Radius.Run Radius.New Radius.systemout Dns.Run Dns.newQuestion Dns.retry
     Dns.convert bind ret Now Since Draw Exchange Range WithTimeout];
  cbn [clock wire random order sent fst snd
       Radius.defaults Radius.Executor.Attributes].

(** The returned error is the one the contract allows, whatever the
    world does. *)
Lemma radius_Run_error lib ctx step (w : World Radius.Call Radius.Reply) :
  snd (fst (Radius.Run lib ctx step w)) = Spec.radiusFatal lib step.
Proof.
  unfold Spec.radiusFatal. run.
  destruct (Radius.Decode lib step) as [err|e]; [ reflexivity |]. run.
  destruct (Radius.parseCode _) as [code|] eqn:C.
  - rewrite bool_decide_eq_true_2.
    + run. destruct (Radius.addAttributes _ _) as [[n err]|packet]; [ reflexivity |].
      run. destruct (wire w 0%nat) as [err|response]; [ reflexivity |].
      run. destruct (0 <? _); reflexivity.
    + destruct (In_dec string_dec (Radius.Executor.Code (Radius.defaults e)) Spec.codeNames)
        as [Hin|Hout]; [ exact Hin |].
      apply parseCode_None in Hout. congruence.
  - rewrite bool_decide_eq_false_2; [ reflexivity |].
    apply parseCode_None. exact C.
Qed.

Lemma radiusFatal_None lib step :
  Spec.radiusFatal lib step = None <->
  exists e, Radius.Decode lib step = inr e
            /\ In (Radius.Executor.Code (Radius.defaults e)) Spec.codeNames.
Proof.
  unfold Spec.radiusFatal. destruct (Radius.Decode lib step) as [err|e].
  - split; [ discriminate | intros (e & [=] & _) ].
  - case_bool_decide as Hin.
    + split; [ intros _; by exists e | reflexivity ].
    + split; [ discriminate | intros (e' & [= <-] & Hin'); tauto ].
Qed.

Lemma codeNames_parseCode code :
  In code Spec.codeNames -> exists c, Radius.parseCode code = Some c.
Proof.
  intros Hin. destruct (Radius.parseCode code) as [c|] eqn:C; [ by exists c |].
  apply parseCode_None in C. tauto.
Qed.

(** An attribute is refused: the soft failure carries the error only,
    and nothing is sent. *)
Lemma radius_Run_refused lib ctx step (w : World Radius.Call Radius.Reply) e name err :
  Radius.Decode lib step = inr e ->
  In (Radius.Executor.Code (Radius.defaults e)) Spec.codeNames ->
  Spec.firstRefusal (order w (map_to_list (Radius.Executor.Attributes e)))
    = Some (name, err) ->
  fst (Radius.Run lib ctx step w)
    = (Some (Radius.Result.setErr
               ("failed to add attribute " +:+ name +:+ ": " +:+ err)
               Radius.Result.zero), None)
  /\ sent (snd (Radius.Run lib ctx step w)) = sent w.
Proof.
  intros D C F. destruct (codeNames_parseCode _ C) as [code P].
  run. rewrite D. run. rewrite P. run.
  match goal with |- context [Radius.addAttributes ?p ?l] =>
    pose proof (addAttributes_firstRefusal p l) as A;
    destruct (Radius.addAttributes p l) as [[n' err']|packet]
  end.
  - rewrite F in A. injection A as <- <-. by split.
  - by rewrite F in A.
Qed.

(** Every attribute is encoded and the exchange fails. *)
Lemma radius_Run_transport_error lib ctx step (w : World Radius.Call Radius.Reply) e err :
  Radius.Decode lib step = inr e ->
  In (Radius.Executor.Code (Radius.defaults e)) Spec.codeNames ->
  Spec.firstRefusal (order w (map_to_list (Radius.Executor.Attributes e))) = None ->
  wire w 0%nat = inl err ->
  exists r,
    fst (Radius.Run lib ctx step w) = (Some r, None)
    /\ Radius.Result.Err r = err
    /\ Radius.Result.TimeSeconds r = Sub (clock w 2%nat) (clock w 0%nat)
    /\ Radius.Result.Request r = Some (Spec.request (Radius.defaults e))
    /\ length (sent (snd (Radius.Run lib ctx step w))) = S (length (sent w)).
Proof.
  intros D C F X. destruct (codeNames_parseCode _ C) as [code P].
  run. rewrite D. run. rewrite P. run.
  match goal with |- context [Radius.addAttributes ?p ?l] =>
    pose proof (addAttributes_firstRefusal p l) as A;
    destruct (Radius.addAttributes p l) as [[n' err']|packet]
  end; [ by rewrite F in A |].
  run. rewrite X. run. eexists. repeat split.
  by rewrite length_app, Nat.add_1_r.
Qed.

(** Every attribute is encoded and the server responds. *)
Lemma radius_Run_response lib ctx step (w : World Radius.Call Radius.Reply) e response :
  Radius.Decode lib step = inr e ->
  In (Radius.Executor.Code (Radius.defaults e)) Spec.codeNames ->
  Spec.firstRefusal (order w (map_to_list (Radius.Executor.Attributes e))) = None ->
  wire w 0%nat = inr response ->
  exists r,
    fst (Radius.Run lib ctx step w) = (Some r, None)
    /\ Radius.Result.Err r = ""
    /\ Radius.Result.Code r = Radius.Code_String lib (Radius.RCode response)
    /\ Radius.Result.TimeSeconds r = Sub (clock w 2%nat) (clock w 0%nat)
    /\ Radius.Result.Request r = Some (Spec.request (Radius.defaults e))
    /\ length (sent (snd (Radius.Run lib ctx step w))) = S (length (sent w)).
Proof.
  intros D C F X. destruct (codeNames_parseCode _ C) as [code P].
  run. rewrite D. run. rewrite P. run.
  match goal with |- context [Radius.addAttributes ?p ?l] =>
    pose proof (addAttributes_firstRefusal p l) as A;
    destruct (Radius.addAttributes p l) as [[n' err']|packet]
  end; [ by rewrite F in A |].
  run. rewrite X. run.
  destruct (0 <? _); run; (eexists; repeat split; by rewrite length_app, Nat.add_1_r).
Qed.

(** ** The paths of the DNS [Run] *)

(** The returned error is the one the contract allows, whatever the
    world does. *)
Lemma dns_Run_error lib ctx step (w : World Dns.Call Dns.Reply) :
  snd (fst (Dns.Run lib ctx step w)) = Spec.dnsFatal lib step.
Proof.
  unfold Spec.dnsFatal. run.
  destruct (Dns.Decode lib step) as [err|e]; [ reflexivity |].
  destruct (String.eqb _ ""); [ reflexivity |]. run.
  destruct (Dns.stringToQType _) as [qType [err|]]; [ reflexivity |]. run.
  destruct (wire w 0%nat) as [err|[udp rtt]]; [ reflexivity |]. run.
  destruct (Dns.Truncated udp); [ | reflexivity ]. run.
  destruct (wire w 1%nat) as [err|[tcp tcpRtt]]; [ reflexivity |].
  destruct (Dns.Truncated tcp); reflexivity.
Qed.

Lemma dnsFatal_None lib step :
  Spec.dnsFatal lib step = None <->
  exists e, Dns.Decode lib step = inr e /\ Dns.Executor.Server e <> "".
Proof.
  unfold Spec.dnsFatal. destruct (Dns.Decode lib step) as [err|e].
  - split; [ discriminate | intros (e & [=] & _) ].
  - destruct (String.eqb_spec (Dns.Executor.Server e) "") as [Heq|Hne].
    + split; [ discriminate | intros (e' & [= <-] & Hne); tauto ].
    + split; [ intros _; by exists e | reflexivity ].
Qed.

(** The record type is not supported: a soft failure, nothing sent. *)
Lemma dns_Run_unsupported_type lib ctx step (w : World Dns.Call Dns.Reply) e :
  Dns.Decode lib step = inr e ->
  Dns.Executor.Server e <> "" ->
  ~ In (Dns.Executor.QType (Dns.defaults e)) Spec.qtypeNames ->
  fst (Dns.Run lib ctx step w)
    = (Some (Spec.failure (Dns.defaults e)
               ("unsupported DNS record type: " +:+ Dns.Executor.QType (Dns.defaults e))
               (Sub (clock w 1%nat) (clock w 0%nat))), None)
  /\ sent (snd (Dns.Run lib ctx step w)) = sent w.
Proof.
  intros D S Q. apply String.eqb_neq in S. run. rewrite D, S. run.
  rewrite (stringToQType_unsupported _ Q). run. by split.
Qed.

(** The UDP exchange fails: a soft failure after one exchange. *)
Lemma dns_Run_transport_error lib ctx step (w : World Dns.Call Dns.Reply) e err :
  Dns.Decode lib step = inr e ->
  Dns.Executor.Server e <> "" ->
  In (Dns.Executor.QType (Dns.defaults e)) Spec.qtypeNames ->
  wire w 0%nat = inl err ->
  fst (Dns.Run lib ctx step w)
    = (Some (Spec.failure (Dns.defaults e) err (Sub (clock w 2%nat) (clock w 0%nat))),
       None)
  /\ length (sent (snd (Dns.Run lib ctx step w))) = S (length (sent w)).
Proof.
  intros D S Q X. apply String.eqb_neq in S. apply stringToQType_supported in Q.
  run. rewrite D, S. run.
  destruct (Dns.stringToQType _) as [qType [e'|]]; [ discriminate |]. run.
  rewrite X. run. split; [ reflexivity |]. by rewrite length_app, Nat.add_1_r.
Qed.

(** [dnsMessageToJSON] returns no error. *)
Lemma dnsMessageToJSON_nil lib msg : snd (Dns.dnsMessageToJSON lib msg) = None.
Proof. reflexivity. Qed.

Ltac converted msg :=
  unfold Spec.answer;
  match goal with
  | |- context [Dns.dnsMessageToJSON ?lib msg] =>
      let J := fresh "J" in
      pose proof (dnsMessageToJSON_nil lib msg) as J;
      destruct (Dns.dnsMessageToJSON lib msg) as [? [?|]];
      [ discriminate J | clear J ]
  end;
  run.

(** The UDP response is complete: it is the answer. *)
Lemma dns_Run_complete lib ctx step (w : World Dns.Call Dns.Reply) e udp rtt :
  Dns.Decode lib step = inr e ->
  Dns.Executor.Server e <> "" ->
  In (Dns.Executor.QType (Dns.defaults e)) Spec.qtypeNames ->
  wire w 0%nat = inr (udp, rtt) ->
  Dns.Truncated udp = false ->
  fst (Dns.Run lib ctx step w)
    = (Some (Spec.answer lib (Dns.defaults e) ""
               (Sub (clock w 2%nat) (clock w 0%nat)) udp rtt), None)
  /\ length (sent (snd (Dns.Run lib ctx step w))) = S (length (sent w)).
Proof.
  intros D S Q X T. apply String.eqb_neq in S. apply stringToQType_supported in Q.
  run. rewrite D, S. run.
  destruct (Dns.stringToQType _) as [qType [e'|]]; [ discriminate |]. run.
  rewrite X. run. rewrite T. run. converted udp.
  split; [ reflexivity |]. by rewrite length_app, Nat.add_1_r.
Qed.

(** The UDP response is truncated: one TCP retry, and the answer is the
    TCP response only when the retry succeeds without truncation. *)
Lemma dns_Run_truncated lib ctx step (w : World Dns.Call Dns.Reply) e udp rtt :
  Dns.Decode lib step = inr e ->
  Dns.Executor.Server e <> "" ->
  In (Dns.Executor.QType (Dns.defaults e)) Spec.qtypeNames ->
  wire w 0%nat = inr (udp, rtt) ->
  Dns.Truncated udp = true ->
  fst (Dns.Run lib ctx step w)
    = (Some
         (let elapsed := Sub (clock w 2%nat) (clock w 0%nat) in
          match wire w 1%nat with
          | inl tcpErr =>
              Spec.answer lib (Dns.defaults e)
                ("UDP response truncated, TCP retry failed: " +:+ tcpErr)
                elapsed udp rtt
          | inr (tcp, tcpRtt) =>
              if Dns.Truncated tcp then
                Spec.answer lib (Dns.defaults e)
                  "UDP response truncated, TCP retry also returned truncated response"
                  elapsed udp rtt
              else Spec.answer lib (Dns.defaults e) "" elapsed tcp tcpRtt
          end), None)
  /\ exists deadline,
       sent (snd (Dns.Run lib ctx step w))
       = sent w ++
         [ {| Dns.Net := "udp"; Dns.Ctx := deadline;
              Dns.Sent := Dns.question (random w 0%nat)
                            (Dns.Fqdn lib (Dns.Executor.Query e))
                            (fst (Dns.stringToQType (Dns.Executor.QType (Dns.defaults e))));
              Dns.Addr := Dns.Executor.Server e |};
           {| Dns.Net := "tcp"; Dns.Ctx := deadline;
              Dns.Sent := Dns.question (random w 1%nat)
                            (Dns.Fqdn lib (Dns.Executor.Query e))
                            (fst (Dns.stringToQType (Dns.Executor.QType (Dns.defaults e))));
              Dns.Addr := Dns.Executor.Server e |} ].
Proof.
  intros D S Q X T. apply String.eqb_neq in S. apply stringToQType_supported in Q.
  run. rewrite D, S. run.
  destruct (Dns.stringToQType _) as [qType [e'|]]; [ discriminate |]. run.
  rewrite X. run. rewrite T. run.
  destruct (wire w 1%nat) as [tcpErr|[tcp tcpRtt]]; run.
  - converted udp. split; [ reflexivity |]. eexists. by rewrite <- app_assoc.
  - destruct (Dns.Truncated tcp); run; [ converted udp | converted tcp ];
      (split; [ reflexivity |]; eexists; by rewrite <- app_assoc).
Qed.

(** Every run of the DNS executor that passes the decoding and the
    server check returns a result, which is determined by the record
    type and by the outcomes of the exchanges. *)
Lemma dns_Run_outcome lib ctx step (w : World Dns.Call Dns.Reply) e :
  Dns.Decode lib step = inr e ->
  Dns.Executor.Server e <> "" ->
  fst (Dns.Run lib ctx step w)
  = (Some
       (let e' := Dns.defaults e in
        let elapsed := Sub (clock w 2%nat) (clock w 0%nat) in
        match snd (Dns.stringToQType (Dns.Executor.QType e')) with
        | Some err => Spec.failure e' err (Sub (clock w 1%nat) (clock w 0%nat))
        | None =>
            match wire w 0%nat with
            | inl err => Spec.failure e' err elapsed
            | inr (udp, rtt) =>
                if Dns.Truncated udp then
                  match wire w 1%nat with
                  | inl tcpErr =>
                      Spec.answer lib e'
                        ("UDP response truncated, TCP retry failed: " +:+ tcpErr)
                        elapsed udp rtt
                  | inr (tcp, tcpRtt) =>
                      if Dns.Truncated tcp then
                        Spec.answer lib e'
                          "UDP response truncated, TCP retry also returned truncated response"
                          elapsed udp rtt
                      else Spec.answer lib e' "" elapsed tcp tcpRtt
                  end
                else Spec.answer lib e' "" elapsed udp rtt
            end
        end), None).
Proof.
  intros D S. cbv zeta.
  destruct (In_dec string_dec (Dns.Executor.QType (Dns.defaults e)) Spec.qtypeNames)
    as [Q|Q].
  - rewrite (proj2 (stringToQType_supported _) Q).
    destruct (wire w 0%nat) as [err|[udp rtt]] eqn:X.
    + apply (dns_Run_transport_error lib ctx step w e err D S Q X).
    + destruct (Dns.Truncated udp) eqn:T.
      * apply (dns_Run_truncated lib ctx step w e udp rtt D S Q X T).
      * apply (dns_Run_complete lib ctx step w e udp rtt D S Q X T).
  - rewrite (stringToQType_unsupported _ Q). cbn [snd].
    apply (dns_Run_unsupported_type lib ctx step w e D S Q).
Qed.

(** ** Failing attributes and the visiting order *)

Lemma not_failing_refusal name value :
  ~ Spec.failing name value <-> Spec.refusal name value = None.
Proof.
  rewrite <- refusal_failing.
  destruct (Spec.refusal name value); split; intros H; try congruence.
  exfalso. apply H. discriminate.
Qed.

Lemma firstRefusal_failing visit :
  (exists name value, In (name, value) visit /\ Spec.failing name value) ->
  exists name err, Spec.firstRefusal visit = Some (name, err).
Proof.
  intros (name & value & Hin & Hf).
  destruct (Spec.firstRefusal visit) as [[n err]|] eqn:F; [ by exists n, err |].
  apply firstRefusal_None in F. rewrite Forall_forall in F.
  apply list_elem_of_In in Hin. specialize (F _ Hin). simpl in F.
  apply not_failing_refusal in F. tauto.
Qed.

Lemma firstRefusal_not_failing visit :
  (forall name value, In (name, value) visit -> ~ Spec.failing name value) ->
  Spec.firstRefusal visit = None.
Proof.
  intros H. apply firstRefusal_None, Forall_forall. intros [n v] Hin.
  apply not_failing_refusal, H, list_elem_of_In, Hin.
Qed.

(** * The claims of the specification *)

(** C1. For every step descriptor, [Run] returns a non-nil error only
    when the descriptor fails to decode, when the DNS server is missing,
    or when the RADIUS packet-code name is not one of the 14 supported
    names: the returned error is [Spec.radiusFatal], respectively
    [Spec.dnsFatal], in every world.  When it is nil a result is
    returned, and each other failure is recorded in its [Err]: an
    attribute that fails to encode (unknown name, unknown enumeration
    value, not a number), a failed RADIUS exchange, a DNS record type
    outside the 11 names of the table, a failed or timed-out UDP
    exchange, a failed TCP retry.
    The conversion of a response never fails; if it did, that error
    would be recorded in [Err] as well, with a nil returned error. *)
Theorem returned_error_only_for_decoding
    (rl : Radius.Library) (dl : Dns.Library) (ctx : Context) :
  (forall step (w : World Radius.Call Radius.Reply),
     snd (fst (Radius.Run rl ctx step w)) = Spec.radiusFatal rl step
     /\ (Spec.radiusFatal rl step = None ->
         exists e r,
           Radius.Decode rl step = inr e
           /\ fst (Radius.Run rl ctx step w) = (Some r, None)
           /\ let visit := order w (map_to_list (Radius.Executor.Attributes e)) in
              (forall n v, In (n, v) visit -> Spec.failing n v ->
                 exists name err,
                   Spec.firstRefusal visit = Some (name, err)
                   /\ Radius.Result.Err r
                      = "failed to add attribute " +:+ name +:+ ": " +:+ err)
              /\ ((forall n v, In (n, v) visit -> ~ Spec.failing n v) ->
                  forall err, wire w 0%nat = inl err -> Radius.Result.Err r = err)))
  /\ (forall step (w : World Dns.Call Dns.Reply),
        snd (fst (Dns.Run dl ctx step w)) = Spec.dnsFatal dl step
        /\ (Spec.dnsFatal dl step = None ->
            exists e r,
              Dns.Decode dl step = inr e
              /\ fst (Dns.Run dl ctx step w) = (Some r, None)
              /\ let qtype := Dns.Executor.QType (Dns.defaults e) in
                 (~ In qtype ["A"; "AAAA"; "MX"; "TXT"; "CNAME"; "NS"; "PTR"; "SOA";
                              "SRV"; "CAA"; "ANY"] ->
                  Dns.Result.Err r = "unsupported DNS record type: " +:+ qtype)
                 /\ (In qtype ["A"; "AAAA"; "MX"; "TXT"; "CNAME"; "NS"; "PTR"; "SOA";
                               "SRV"; "CAA"; "ANY"] ->
                     (forall err, wire w 0%nat = inl err -> Dns.Result.Err r = err)
                     /\ (forall udp rtt tcpErr,
                           wire w 0%nat = inr (udp, rtt) ->
                           Dns.Truncated udp = true ->
                           wire w 1%nat = inl tcpErr ->
                           Dns.Result.Err r
                           = "UDP response truncated, TCP retry failed: " +:+ tcpErr))))
  /\ (forall msg, snd (Dns.dnsMessageToJSON dl msg) = None)
  /\ (forall e result response rtt tree err,
        Dns.convert dl e result response rtt (tree, Some err)
        = (Some (Dns.Result.setErr
                   ("failed to convert DNS message to JSON: " +:+ err) result), None)).
Proof.
  split; [ | split; [ | split; [ | reflexivity ] ] ].
  - intros step w. split; [ apply radius_Run_error |].
    intros Hnone. apply radiusFatal_None in Hnone as (e & D & C).
    cbv zeta.
    destruct (Spec.firstRefusal (order w (map_to_list (Radius.Executor.Attributes e))))
      as [[name err]|] eqn:F.
    + destruct (radius_Run_refused rl ctx step w e name err D C F) as [HR _].
      eexists e, _. split; [ exact D |]. split; [ exact HR |]. split.
      * intros _ _ _ _. by exists name, err.
      * intros Hok. rewrite (firstRefusal_not_failing _ Hok) in F. discriminate.
    + destruct (wire w 0%nat) as [err|response] eqn:X.
      * destruct (radius_Run_transport_error rl ctx step w e err D C F X)
          as (r & HR & HE & _).
        exists e, r. split; [ exact D |]. split; [ exact HR |]. split.
        -- intros n v Hin Hf.
           destruct (firstRefusal_failing _ (ex_intro _ n (ex_intro _ v (conj Hin Hf))))
             as (name & err' & F').
           rewrite F' in F. discriminate.
        -- intros _ err' [= <-]. exact HE.
      * destruct (radius_Run_response rl ctx step w e response D C F X)
          as (r & HR & _).
        exists e, r. split; [ exact D |]. split; [ exact HR |]. split.
        -- intros n v Hin Hf.
           destruct (firstRefusal_failing _ (ex_intro _ n (ex_intro _ v (conj Hin Hf))))
             as (name & err' & F').
           rewrite F' in F. discriminate.
        -- intros _ err' [=].
  - intros step w. split; [ apply dns_Run_error |].
    intros Hnone. apply dnsFatal_None in Hnone as (e & D & S).
    eexists e, _. split; [ exact D |].
    split; [ exact (dns_Run_outcome dl ctx step w e D S) |].
    cbv zeta. split.
    + intros Q. change (~ In (Dns.Executor.QType (Dns.defaults e)) Spec.qtypeNames) in Q.
      rewrite (stringToQType_unsupported _ Q). reflexivity.
    + intros Q. change (In (Dns.Executor.QType (Dns.defaults e)) Spec.qtypeNames) in Q.
      rewrite (proj2 (stringToQType_supported _) Q). split.
      * intros err ->. reflexivity.
      * intros udp rtt tcpErr -> -> ->. reflexivity.
  - intros msg. apply dnsMessageToJSON_nil.
Qed.

(** The contract of C1 on the descriptors of the tests: the invalid
    packet code and the missing server are returned errors, the invalid
    attribute and the invalid record type are not, and the invalid
    record type is named in [Err]. *)
Lemma returned_error_only_for_decoding_witness :
  snd (fst (Radius.Run Sample.radiusLib Background Sample.invalidCode Sample.silent))
    = Some "unsupported RADIUS code: Invalid-Code"
  /\ snd (fst (Radius.Run Sample.radiusLib Background Sample.invalidAttribute Sample.silent))
    = None
  /\ snd (fst (Dns.Run Sample.dnsLib Background Sample.missingServer Sample.unreachable))
    = Some "server is mandatory for DNS executor"
  /\ snd (fst (Dns.Run Sample.dnsLib Background Sample.invalidType Sample.unreachable))
    = None
  /\ exists r,
       fst (Dns.Run Sample.dnsLib Background Sample.invalidType Sample.unreachable)
       = (Some r, None)
       /\ Dns.Result.Err r = "unsupported DNS record type: INVALID".
Proof.
  destruct (returned_error_only_for_decoding Sample.radiusLib Sample.dnsLib Background)
    as (R & D & _).
  refine (conj _ (conj _ (conj _ (conj _ _)))).
  - rewrite (proj1 (R Sample.invalidCode Sample.silent)). reflexivity.
  - rewrite (proj1 (R Sample.invalidAttribute Sample.silent)). reflexivity.
  - rewrite (proj1 (D Sample.missingServer Sample.unreachable)). reflexivity.
  - rewrite (proj1 (D Sample.invalidType Sample.unreachable)). reflexivity.
  - destruct (proj2 (D Sample.invalidType Sample.unreachable) eq_refl)
      as (e & r & HD & HR & HU & _).
    exists r. split; [ exact HR |].
    vm_compute in HD. injection HD as <-.
    apply HU. simpl. intuition discriminate.
Defined.

(** C2, as amended.  In the DNS executor, when the UDP response has the
    truncation flag set, [Run] performs exactly one TCP retry, with a
    freshly built question message (the same question under the
    identifier drawn second) and under the same context and deadline.
    If the retry errors, the truncated UDP response is kept and [Err]
    describes the truncation and the retry failure; if the TCP response
    is itself truncated, [Err] notes the anomaly and the truncated UDP
    response is kept as well; if the retry succeeds without truncation,
    [RCode], [Message] and the round-trip time are those of the TCP
    response. *)
Theorem dns_truncation_retries_once_over_tcp
    lib ctx step (w : World Dns.Call Dns.Reply) e udp rtt :
  Dns.Decode lib step = inr e ->
  Dns.Executor.Server e <> "" ->
  In (Dns.Executor.QType (Dns.defaults e)) Spec.qtypeNames ->
  wire w 0%nat = inr (udp, rtt) ->
  Dns.Truncated udp = true ->
  (exists deadline,
     let qType := fst (Dns.stringToQType (Dns.Executor.QType (Dns.defaults e))) in
     let name := Dns.Fqdn lib (Dns.Executor.Query e) in
     sent (snd (Dns.Run lib ctx step w))
     = sent w ++
       [ {| Dns.Net := "udp"; Dns.Ctx := deadline;
            Dns.Sent := Dns.question (random w 0%nat) name qType;
            Dns.Addr := Dns.Executor.Server e |};
         {| Dns.Net := "tcp"; Dns.Ctx := deadline;
            Dns.Sent := Dns.question (random w 1%nat) name qType;
            Dns.Addr := Dns.Executor.Server e |} ])
  /\ exists r,
       fst (Dns.Run lib ctx step w) = (Some r, None)
       /\ let json response := Some (Map (fst (Dns.dnsMessageToJSON lib response))) in
          let rcode response := Dns.index (Dns.RcodeToString lib) (Dns.Rcode response) in
          match wire w 1%nat with
          | inl tcpErr =>
              Dns.Result.Err r = "UDP response truncated, TCP retry failed: " +:+ tcpErr
              /\ Dns.Result.RCode r = rcode udp
              /\ Dns.Result.Message r = json udp
              /\ Dns.Result.Systemout r
                 = Dns.systemout lib (Dns.defaults e) (rcode udp) rtt udp
          | inr (tcp, tcpRtt) =>
              if Dns.Truncated tcp then
                Dns.Result.Err r
                = "UDP response truncated, TCP retry also returned truncated response"
                /\ Dns.Result.RCode r = rcode udp
                /\ Dns.Result.Message r = json udp
                /\ Dns.Result.Systemout r
                   = Dns.systemout lib (Dns.defaults e) (rcode udp) rtt udp
              else
                Dns.Result.Err r = ""
                /\ Dns.Result.RCode r = rcode tcp
                /\ Dns.Result.Message r = json tcp
                /\ Dns.Result.Systemout r
                   = Dns.systemout lib (Dns.defaults e) (rcode tcp) tcpRtt tcp
          end.
Proof.
  intros D S Q X T.
  destruct (dns_Run_truncated lib ctx step w e udp rtt D S Q X T) as [HR HS].
  split; [ exact HS |].
  eexists. split; [ exact HR |]. cbv zeta.
  destruct (wire w 1%nat) as [tcpErr|[tcp tcpRtt]]; [ by repeat split |].
  destruct (Dns.Truncated tcp); by repeat split.
Qed.

(** The retry of C2 in the world where the TCP response is complete:
    two exchanges, and the summary shows the round-trip time of TCP. *)
Lemma dns_truncation_retries_once_over_tcp_witness :
  length (sent (snd (Dns.Run Sample.dnsLib Background Sample.dnsDefaults
                       Sample.truncatedThenComplete))) = 2%nat
  /\ exists r,
       fst (Dns.Run Sample.dnsLib Background Sample.dnsDefaults
              Sample.truncatedThenComplete) = (Some r, None)
       /\ Dns.Result.Err r = ""
       /\ Dns.Result.Message r
          = Some (Map (fst (Dns.dnsMessageToJSON Sample.dnsLib Sample.tcpComplete))).
Proof.
  destruct (dns_truncation_retries_once_over_tcp
              Sample.dnsLib Background Sample.dnsDefaults Sample.truncatedThenComplete
              {| Dns.Executor.Server := "8.8.8.8:53"; Dns.Executor.Query := "example.com";
                 Dns.Executor.QType := ""; Dns.Executor.Timeout := 0 |}
              Sample.udpTruncated 3000000)
    as [[deadline HS] (r & HR & HE & _ & HM & _)].
  - reflexivity.
  - discriminate.
  - simpl. tauto.
  - reflexivity.
  - reflexivity.
  - split; [ rewrite HS; reflexivity |].
    exists r. split; [ exact HR |]. split; [ exact HE | exact HM ].
Defined.

(** C2 as stated fails where it says that a truncated TCP response is
    still used: in the world where both responses are truncated, the
    UDP response has code NOERROR and the TCP response SERVFAIL, and
    the result carries the code and the tree of the UDP response. *)
Lemma dns_truncated_tcp_response_is_not_used :
  wire Sample.truncatedTwice 0%nat = inr (Sample.udpTruncated, 3000000)
  /\ wire Sample.truncatedTwice 1%nat = inr (Sample.tcpTruncated, 20000000)
  /\ Dns.Truncated Sample.udpTruncated = true
  /\ Dns.Truncated Sample.tcpTruncated = true
  /\ exists r,
       fst (Dns.Run Sample.dnsLib Background Sample.dnsDefaults Sample.truncatedTwice)
       = (Some r, None)
       /\ Dns.Result.Err r
          = "UDP response truncated, TCP retry also returned truncated response"
       /\ Dns.Result.RCode r = "NOERROR"
       /\ Dns.index (Dns.RcodeToString Sample.dnsLib) (Dns.Rcode Sample.tcpTruncated)
          = "SERVFAIL"
       /\ Dns.Result.Message r
          = Some (Map (fst (Dns.dnsMessageToJSON Sample.dnsLib Sample.udpTruncated)))
       /\ Dns.Result.Message r
          <> Some (Map (fst (Dns.dnsMessageToJSON Sample.dnsLib Sample.tcpTruncated))).
Proof.
  repeat (split; [ reflexivity |]).
  exists (Spec.answer Sample.dnsLib
            {| Dns.Executor.Server := "8.8.8.8:53"; Dns.Executor.Query := "example.com";
               Dns.Executor.QType := "A"; Dns.Executor.Timeout := 5 |}
            "UDP response truncated, TCP retry also returned truncated response"
            14 Sample.udpTruncated 3000000).
  split; [ vm_compute; reflexivity |].
  repeat (split; [ reflexivity |]).
  unfold Spec.answer. cbn [Dns.Result.Message]. intros H.
  apply (f_equal (fun o => match o with
                           | Some (Map m) => m !! "rcode"
                           | _ => None
                           end)) in H.
  vm_compute in H. discriminate H.
Qed.

(** C3. In the RADIUS executor, once decoding and code resolution have
    passed, for any attribute map containing an attribute that fails to
    encode (unsupported name, enumeration value outside its closed
    vocabulary, or not a number where an integer is required), whatever
    the order in which the map is visited: the loop stops at the first
    failing attribute [n] of that order, whatever follows it; [Run]
    returns at once, with a nil error, the result whose only field set
    is [Err], a non-empty message that names [n]; and no packet is
    sent. *)
Theorem radius_attribute_failure_aborts
    lib ctx step (w : World Radius.Call Radius.Reply) e name value :
  Radius.Decode lib step = inr e ->
  In (Radius.Executor.Code (Radius.defaults e)) Spec.codeNames ->
  order w (map_to_list (Radius.Executor.Attributes e))
    ≡ₚ map_to_list (Radius.Executor.Attributes e) ->
  Radius.Executor.Attributes e !! name = Some value ->
  Spec.failing name value ->
  exists pre n v post err,
    order w (map_to_list (Radius.Executor.Attributes e)) = pre ++ (n, v) :: post
    /\ Forall (fun kv => ~ Spec.failing (fst kv) (snd kv)) pre
    /\ Radius.Executor.Attributes e !! n = Some v
    /\ Spec.failing n v
    /\ (forall packet rest,
          Radius.addAttributes packet (pre ++ (n, v) :: rest) = inl (n, err))
    /\ fst (Radius.Run lib ctx step w)
       = (Some (Radius.Result.setErr
                  ("failed to add attribute " +:+ n +:+ ": " +:+ err)
                  Radius.Result.zero), None)
    /\ "failed to add attribute " +:+ n +:+ ": " +:+ err <> ""
    /\ sent (snd (Radius.Run lib ctx step w)) = sent w.
Proof.
  intros D C P L F.
  assert (In (name, value) (order w (map_to_list (Radius.Executor.Attributes e))))
    as Hin.
  { apply list_elem_of_In. rewrite P. by apply elem_of_map_to_list. }
  destruct (firstRefusal_failing _ (ex_intro _ name (ex_intro _ value (conj Hin F))))
    as (n & err & F1).
  destruct (firstRefusal_split _ _ _ F1) as (pre & v & post & E & Hpre & Hr).
  destruct (radius_Run_refused lib ctx step w e n err D C F1) as [HR HS].
  exists pre, n, v, post, err. repeat split.
  - exact E.
  - eapply Forall_impl; [ exact Hpre |]. intros [k x] Hk.
    by apply not_failing_refusal.
  - apply elem_of_map_to_list. rewrite <- P, E.
    apply list_elem_of_In, in_elt.
  - apply refusal_failing. by rewrite Hr.
  - intros packet rest.
    pose proof (addAttributes_firstRefusal packet (pre ++ (n, v) :: rest)) as A.
    rewrite (firstRefusal_app pre n v rest err Hpre Hr) in A.
    destruct (Radius.addAttributes packet _) as [failure|packet'];
      [ congruence | discriminate ].
  - exact HR.
  - discriminate.
  - exact HS.
Qed.

(** C3 on the descriptor of [TestRadiusExecutorInvalidAttribute]: a
    result with a non-empty error, and nothing sent. *)
Lemma radius_attribute_failure_aborts_witness :
  (exists r,
     fst (Radius.Run Sample.radiusLib Background Sample.invalidAttribute Sample.silent)
     = (Some r, None)
     /\ Radius.Result.Err r <> "")
  /\ sent (snd (Radius.Run Sample.radiusLib Background Sample.invalidAttribute
                  Sample.silent)) = [].
Proof.
  destruct (radius_attribute_failure_aborts
              Sample.radiusLib Background Sample.invalidAttribute Sample.silent
              {| Radius.Executor.Server := ""; Radius.Executor.Secret := "";
                 Radius.Executor.Code := ""; Radius.Executor.Timeout := 0;
                 Radius.Executor.Attributes := {[ "Invalid-Attribute" := "value" ]} |}
              "Invalid-Attribute" "value")
    as (pre & n & v & post & err & _ & _ & _ & _ & _ & HR & HE & HS).
  - reflexivity.
  - simpl. tauto.
  - reflexivity.
  - reflexivity.
  - apply Spec.unsupported_name. intros Hin. simpl in Hin.
    repeat (destruct Hin as [Hin|Hin]; [ discriminate Hin |]). exact Hin.
  - split; [ | exact HS ]. eexists. split; [ exact HR | exact HE ].
Defined.

(** C4, the failing input.  On the descriptor of
    [TestRadiusExecutorInvalidAttribute] the RADIUS [Run] returns a
    soft failure whose [TimeSeconds] is still the zero value, although
    the clock has advanced since [start] was read. *)
Theorem radius_attribute_failure_leaves_time_unset :
  exists r,
    fst (Radius.Run Sample.radiusLib Background Sample.invalidAttribute Sample.silent)
    = (Some r, None)
    /\ Radius.Result.Err r
       = "failed to add attribute Invalid-Attribute: unsupported attribute: Invalid-Attribute"
    /\ Radius.Result.TimeSeconds r = 0
    /\ Sub (clock Sample.silent 1%nat) (clock Sample.silent 0%nat) = 7.
Proof. eexists. split; [ vm_compute; reflexivity | by repeat split ]. Qed.

(** A returned error comes without a result and before any effect. *)
Lemma dns_Run_fatal lib ctx step (w : World Dns.Call Dns.Reply) err :
  Spec.dnsFatal lib step = Some err ->
  Dns.Run lib ctx step w = (None, Some err, w).
Proof.
  unfold Spec.dnsFatal. run.
  destruct (Dns.Decode lib step) as [err'|e].
  - by intros [= ->].
  - destruct (String.eqb _ ""); [ by intros [= <-] | discriminate ].
Qed.

(** The other exits do record the elapsed time: the two later exits of
    the RADIUS [Run] ([radius_Run_transport_error],
    [radius_Run_response]) and every exit of the DNS [Run]. *)
Lemma dns_elapsed_time_recorded lib ctx step (w : World Dns.Call Dns.Reply) r :
  fst (fst (Dns.Run lib ctx step w)) = Some r ->
  Dns.Result.TimeSeconds r = Sub (clock w 1%nat) (clock w 0%nat)
  \/ Dns.Result.TimeSeconds r = Sub (clock w 2%nat) (clock w 0%nat).
Proof.
  intros HR.
  destruct (Spec.dnsFatal lib step) as [err|] eqn:N.
  - rewrite (dns_Run_fatal lib ctx step w err N) in HR. discriminate.
  - apply dnsFatal_None in N as (e & D & S).
    rewrite (dns_Run_outcome lib ctx step w e D S) in HR.
    cbv zeta in HR. cbn [fst] in HR. injection HR as <-.
    destruct (Dns.stringToQType _) as [qType [err|]]; cbn [snd]; [ by left |].
    destruct (wire w 0%nat) as [err|[udp rtt]]; [ by right |].
    destruct (Dns.Truncated udp); [ | by right ].
    destruct (wire w 1%nat) as [tcpErr|[tcp tcpRtt]]; [ by right |].
    destruct (Dns.Truncated tcp); by right.
Qed.

(** C5, as amended.  In the RADIUS executor, for every invocation that
    passes config decoding, code resolution and the encoding of every
    attribute, the fully-resolved request (server, code, attribute map)
    is recorded into [Request], whether the exchange then fails (the
    transport error is in [Err]) or is answered. *)
Theorem radius_request_recorded_once_encoded
    lib ctx step (w : World Radius.Call Radius.Reply) e :
  Radius.Decode lib step = inr e ->
  In (Radius.Executor.Code (Radius.defaults e)) Spec.codeNames ->
  order w (map_to_list (Radius.Executor.Attributes e))
    ≡ₚ map_to_list (Radius.Executor.Attributes e) ->
  (forall name value,
     Radius.Executor.Attributes e !! name = Some value -> ~ Spec.failing name value) ->
  exists r,
    fst (Radius.Run lib ctx step w) = (Some r, None)
    /\ Radius.Result.Request r
       = Some {[ "server" := Str (Radius.Executor.Server (Radius.defaults e));
                 "code" := Str (Radius.Executor.Code (Radius.defaults e));
                 "attributes" := StrMap (Radius.Executor.Attributes e) ]}
    /\ match wire w 0%nat with
       | inl err => Radius.Result.Err r = err
       | inr response =>
           Radius.Result.Err r = ""
           /\ Radius.Result.Code r = Radius.Code_String lib (Radius.RCode response)
       end.
Proof.
  intros D C P Hok.
  assert (Spec.firstRefusal (order w (map_to_list (Radius.Executor.Attributes e))) = None)
    as F.
  { apply firstRefusal_not_failing. intros name value Hin.
    apply Hok, elem_of_map_to_list. rewrite <- P. by apply list_elem_of_In. }
  destruct (wire w 0%nat) as [err|response] eqn:X.
  - destruct (radius_Run_transport_error lib ctx step w e err D C F X)
      as (r & HR & HE & _ & HQ & _).
    exists r. by repeat split.
  - destruct (radius_Run_response lib ctx step w e response D C F X)
      as (r & HR & HE & HC & _ & HQ & _).
    exists r. by repeat split.
Qed.

(** C5 on the descriptor of [TestRadiusExecutor] when no server
    listens: the request is in the result next to the transport error. *)
Lemma radius_request_recorded_once_encoded_witness :
  exists r,
    fst (Radius.Run Sample.radiusLib Background Sample.accessRequest Sample.silent)
    = (Some r, None)
    /\ Radius.Result.Request r
       = Some {[ "server" := Str "localhost:1812";
                 "code" := Str "Access-Request";
                 "attributes" := StrMap {[ "User-Name" := "testuser";
                                           "User-Password" := "testpass";
                                           "NAS-IP-Address" := "192.168.1.1" ]} ]}
    /\ Radius.Result.Err r = "read udp 127.0.0.1:1812: i/o timeout".
Proof.
  destruct (radius_request_recorded_once_encoded
              Sample.radiusLib Background Sample.accessRequest Sample.silent
              {| Radius.Executor.Server := "localhost:1812";
                 Radius.Executor.Secret := "secret";
                 Radius.Executor.Code := "Access-Request";
                 Radius.Executor.Timeout := 5;
                 Radius.Executor.Attributes :=
                   {[ "User-Name" := "testuser"; "User-Password" := "testpass";
                      "NAS-IP-Address" := "192.168.1.1" ]} |})
    as (r & HR & HQ & HE).
  - reflexivity.
  - simpl. tauto.
  - reflexivity.
  - intros name value L. apply not_failing_refusal.
    assert (Spec.firstRefusal
              (map_to_list ({[ "User-Name" := "testuser"; "User-Password" := "testpass";
                               "NAS-IP-Address" := "192.168.1.1" ]} : gmap string string))
            = None) as F by (vm_compute; reflexivity).
    apply firstRefusal_None in F. rewrite Forall_forall in F.
    apply (F (name, value)), elem_of_map_to_list, L.
  - exists r. split; [ exact HR |]. split; [ exact HQ | exact HE ].
Defined.

(** C5 as stated fails when attribute encoding fails: on the descriptor
    of [TestRadiusExecutorInvalidAttribute], which passes decoding and
    code resolution, the soft failure carries no [Request]. *)
Lemma radius_request_missing_after_attribute_failure :
  (exists e code,
     Radius.Decode Sample.radiusLib Sample.invalidAttribute = inr e
     /\ Radius.parseCode (Radius.Executor.Code (Radius.defaults e)) = Some code)
  /\ exists r,
       fst (Radius.Run Sample.radiusLib Background Sample.invalidAttribute Sample.silent)
       = (Some r, None)
       /\ Radius.Result.Err r
          = "failed to add attribute Invalid-Attribute: unsupported attribute: Invalid-Attribute"
       /\ Radius.Result.Request r = None.
Proof.
  split.
  - eexists _, _. split; reflexivity.
  - eexists. split; [ vm_compute; reflexivity | by split ].
Qed.

(** C6, the failing input.  For the three attributes of the IP-address
    kind, [addAttribute] hands the setter the bytes of the string as
    they are; for "192.168.1.1" these are its 11 characters, not the 4
    bytes 192, 168, 1, 1 of the dotted-decimal notation. *)
Theorem radius_ip_address_is_not_parsed :
  (forall packet value,
     Radius.addAttribute packet "NAS-IP-Address" value
       = (Radius.Set_ Radius.NASIPAddress (Radius.Bytes (Radius.bytes value)) packet, None)
     /\ Radius.addAttribute packet "Framed-IP-Address" value
       = (Radius.Set_ Radius.FramedIPAddress (Radius.Bytes (Radius.bytes value)) packet, None)
     /\ Radius.addAttribute packet "Framed-IP-Netmask" value
       = (Radius.Set_ Radius.FramedIPNetmask (Radius.Bytes (Radius.bytes value)) packet, None))
  /\ Radius.bytes "192.168.1.1"
     = [ Byte.x31; Byte.x39; Byte.x32; Byte.x2e; Byte.x31; Byte.x36; Byte.x38;
         Byte.x2e; Byte.x31; Byte.x2e; Byte.x31 ]
  /\ Spec.dottedDecimal "192.168.1.1" = Some [ Byte.xc0; Byte.xa8; Byte.x01; Byte.x01 ].
Proof. by repeat split. Qed.

(** C7. In the DNS executor the record-type name is resolved against
    exactly the 11-entry table A, AAAA, MX, TXT, CNAME, NS, PTR, SOA,
    SRV, CAA, ANY; for any name outside this table (in a descriptor
    that decodes and names a server) [Run] returns a nil error and a
    result whose [Err] is non-empty and names the unsupported type,
    and no exchange is attempted. *)
Theorem dns_unsupported_type_is_a_soft_failure (lib : Dns.Library) (ctx : Context) :
  (forall qtype,
     snd (Dns.stringToQType qtype) = None
     <-> In qtype ["A"; "AAAA"; "MX"; "TXT"; "CNAME"; "NS"; "PTR"; "SOA"; "SRV";
                   "CAA"; "ANY"])
  /\ forall step (w : World Dns.Call Dns.Reply) e,
       Dns.Decode lib step = inr e ->
       Dns.Executor.Server e <> "" ->
       snd (Dns.stringToQType (Dns.Executor.QType (Dns.defaults e))) <> None ->
       exists r,
         fst (Dns.Run lib ctx step w) = (Some r, None)
         /\ Dns.Result.Err r
            = "unsupported DNS record type: " +:+ Dns.Executor.QType (Dns.defaults e)
         /\ Dns.Result.Err r <> ""
         /\ sent (snd (Dns.Run lib ctx step w)) = sent w.
Proof.
  split; [ exact stringToQType_supported |].
  intros step w e D S Q.
  assert (~ In (Dns.Executor.QType (Dns.defaults e)) Spec.qtypeNames) as Q'.
  { intros Hin. apply Q, stringToQType_supported, Hin. }
  destruct (dns_Run_unsupported_type lib ctx step w e D S Q') as [HR HS].
  eexists. split; [ exact HR |]. by repeat split.
Qed.

(** C7 on the descriptor of [TestDNSExecutorInvalidType]. *)
Lemma dns_unsupported_type_is_a_soft_failure_witness :
  exists r,
    fst (Dns.Run Sample.dnsLib Background Sample.invalidType Sample.unreachable)
    = (Some r, None)
    /\ Dns.Result.Err r = "unsupported DNS record type: INVALID"
    /\ sent (snd (Dns.Run Sample.dnsLib Background Sample.invalidType Sample.unreachable))
       = [].
Proof.
  destruct (proj2 (dns_unsupported_type_is_a_soft_failure Sample.dnsLib Background)
              Sample.invalidType Sample.unreachable
              {| Dns.Executor.Server := "8.8.8.8:53"; Dns.Executor.Query := "example.com";
                 Dns.Executor.QType := "INVALID"; Dns.Executor.Timeout := 0 |})
    as (r & HR & HE & _ & HS).
  - reflexivity.
  - discriminate.
  - discriminate.
  - exists r. split; [ exact HR |]. split; [ exact HE | exact HS ].
Defined.

(** C8. In the DNS executor, for every step descriptor that decodes
    with an empty server (the field is empty or absent), [Run] returns
    the error "server is mandatory for DNS executor" and no result,
    before any effect. *)
Theorem dns_server_is_mandatory lib ctx step (w : World Dns.Call Dns.Reply) e :
  Dns.Decode lib step = inr e ->
  Dns.Executor.Server e = "" ->
  Dns.Run lib ctx step w = (None, Some "server is mandatory for DNS executor", w).
Proof.
  intros D S. apply dns_Run_fatal. unfold Spec.dnsFatal. by rewrite D, S.
Qed.

(** C8 on the descriptor of [TestDNSExecutorMissingServer]. *)
Lemma dns_server_is_mandatory_witness :
  Dns.Run Sample.dnsLib Background Sample.missingServer Sample.unreachable
  = (None, Some "server is mandatory for DNS executor", Sample.unreachable).
Proof.
  apply (dns_server_is_mandatory Sample.dnsLib Background Sample.missingServer
           Sample.unreachable
           {| Dns.Executor.Server := ""; Dns.Executor.Query := "example.com";
              Dns.Executor.QType := "A"; Dns.Executor.Timeout := 0 |}).
  - reflexivity.
  - reflexivity.
Defined.

(** C9. [dnsMessageToJSON] returns a nil error for every message, so
    the branch "failed to convert DNS message to JSON" of [Run] is
    never taken; every invocation that receives a response yields a
    result whose [Message] is non-nil, is the tree of a response, and
    equals its [SystemoutJSON]. *)
Theorem dns_message_is_always_converted (lib : Dns.Library) (ctx : Context) :
  (forall msg, snd (Dns.dnsMessageToJSON lib msg) = None)
  /\ forall step (w : World Dns.Call Dns.Reply) e udp rtt,
       Dns.Decode lib step = inr e ->
       Dns.Executor.Server e <> "" ->
       snd (Dns.stringToQType (Dns.Executor.QType (Dns.defaults e))) = None ->
       wire w 0%nat = inr (udp, rtt) ->
       exists r,
         fst (Dns.Run lib ctx step w) = (Some r, None)
         /\ Dns.Result.Message r <> None
         /\ Dns.Result.Message r = Dns.Result.SystemoutJSON r
         /\ (exists response,
               Dns.Result.Message r = Some (Map (fst (Dns.dnsMessageToJSON lib response))))
         /\ String.prefix "failed to convert DNS message to JSON" (Dns.Result.Err r) = false.
Proof.
  split; [ apply dnsMessageToJSON_nil |].
  intros step w e udp rtt D S Q X.
  eexists. split; [ exact (dns_Run_outcome lib ctx step w e D S) |].
  cbv zeta. rewrite Q, X.
  destruct (Dns.Truncated udp).
  - destruct (wire w 1%nat) as [tcpErr|[tcp tcpRtt]].
    + repeat split; [ discriminate | by exists udp ].
    + destruct (Dns.Truncated tcp);
        (repeat split; [ discriminate | by eexists ]).
  - repeat split; [ discriminate | by exists udp ].
Qed.

(** C9 on the descriptor of [TestDNSExecutorDefaults], answered. *)
Lemma dns_message_is_always_converted_witness :
  exists r,
    fst (Dns.Run Sample.dnsLib Background Sample.dnsDefaults Sample.answered)
    = (Some r, None)
    /\ Dns.Result.Message r <> None
    /\ Dns.Result.Message r = Dns.Result.SystemoutJSON r.
Proof.
  destruct (proj2 (dns_message_is_always_converted Sample.dnsLib Background)
              Sample.dnsDefaults Sample.answered
              {| Dns.Executor.Server := "8.8.8.8:53"; Dns.Executor.Query := "example.com";
                 Dns.Executor.QType := ""; Dns.Executor.Timeout := 0 |}
              (Sample.response 40 false 0 [Sample.address]) 3000000)
    as (r & HR & HN & HJ & _).
  - reflexivity.
  - discriminate.
  - reflexivity.
  - reflexivity.
  - exists r. split; [ exact HR |]. split; [ exact HN | exact HJ ].
Defined.

(** C10. Every result that the DNS [Run] returns with a nil error, on
    success and on every soft-failure path, has its [Query], [QType]
    (after defaulting to "A") and [Server] equal to the decoded and
    defaulted configuration; and a nil error always comes with such a
    result. *)
Theorem dns_result_echoes_the_configuration
    lib ctx step (w : World Dns.Call Dns.Reply) :
  snd (fst (Dns.Run lib ctx step w)) = None ->
  exists e r,
    Dns.Decode lib step = inr e
    /\ fst (fst (Dns.Run lib ctx step w)) = Some r
    /\ Dns.Result.Query r = Dns.Executor.Query e
    /\ Dns.Result.QType r
       = (if String.eqb (Dns.Executor.QType e) "" then "A" else Dns.Executor.QType e)
    /\ Dns.Result.Server r = Dns.Executor.Server e.
Proof.
  rewrite dns_Run_error. intros N. apply dnsFatal_None in N as (e & D & S).
  rewrite (dns_Run_outcome lib ctx step w e D S). cbv zeta. cbn [fst].
  eexists e, _. split; [ exact D |]. split; [ reflexivity |].
  destruct (Dns.stringToQType _) as [qType [err|]]; cbn [snd]; [ by repeat split |].
  destruct (wire w 0%nat) as [err|[udp rtt]]; [ by repeat split |].
  destruct (Dns.Truncated udp); [ | by repeat split ].
  destruct (wire w 1%nat) as [tcpErr|[tcp tcpRtt]]; [ by repeat split |].
  destruct (Dns.Truncated tcp); by repeat split.
Qed.

(** C10 on the descriptor of [TestDNSExecutorDefaults] when the server
    does not answer: the soft failure echoes the query, the defaulted
    record type and the server. *)
Lemma dns_result_echoes_the_configuration_witness :
  exists r,
    fst (fst (Dns.Run Sample.dnsLib Background Sample.dnsDefaults Sample.unreachable))
    = Some r
    /\ Dns.Result.Query r = "example.com"
    /\ Dns.Result.QType r = "A"
    /\ Dns.Result.Server r = "8.8.8.8:53".
Proof.
  destruct (dns_result_echoes_the_configuration
              Sample.dnsLib Background Sample.dnsDefaults Sample.unreachable)
    as (e & r & D & HR & HQ & HT & HS).
  - reflexivity.
  - injection D as <-. exists r. split; [ exact HR |].
    split; [ exact HQ |]. split; [ exact HT | exact HS ].
Defined.

Lemma switch_branches_Some {A : Type} x (table : list (string * A)) v :
  switch x (Spec.branches table) None = Some v -> In (x, v) table.
Proof.
  induction table as [|[label a] table IH]; simpl; [ discriminate |].
  destruct (String.eqb_spec x label) as [->|_].
  - intros [= ->]. by left.
  - intros H. right. by apply IH.
Qed.

Lemma NoDup_snd_inj {A B : Type} (table : list (A * B)) a b v :
  NoDup (map snd table) -> In (a, v) table -> In (b, v) table -> a = b.
Proof.
  induction table as [|[k x] table IH]; simpl; [ tauto |].
  intros Hnd. apply NoDup_cons in Hnd as [Hx Hnd].
  assert (forall c, In (c, x) table -> False) as Hfresh.
  { intros c Hc. apply Hx, list_elem_of_In. apply (in_map snd) in Hc. exact Hc. }
  intros [Ha|Ha] [Hb|Hb].
  - congruence.
  - exfalso. injection Ha as _ ->. eapply Hfresh, Hb.
  - exfalso. injection Hb as _ ->. eapply Hfresh, Ha.
  - by apply IH.
Qed.

Lemma kindOf_In name kind :
  Spec.kindOf name = Some kind -> In (name, kind) Spec.attributeTable.
Proof. apply switch_branches_Some. Qed.

Lemma attributeTable_Forall (Q : string -> Spec.Kind -> Prop) :
  Forall (fun entry => Q (fst entry) (snd entry)) Spec.attributeTable ->
  forall name kind, Spec.kindOf name = Some kind -> Q name kind.
Proof.
  intros H name kind K. apply kindOf_In in K.
  rewrite List.Forall_forall in H. apply (H _ K).
Qed.


(** * Further properties of the code *)

(** ** The "Set defaults" blocks *)

(** After the defaults of the RADIUS [Run], server, secret and code are
    never empty and the timeout is never 0; a field that was given is
    kept, the attributes are untouched, and applying the defaults again
    changes nothing. *)
Theorem radius_defaults_fill_every_gap (e : Radius.Executor.t) :
  let d := Radius.defaults e in
  Radius.Executor.Server d <> "" /\ Radius.Executor.Secret d <> ""
  /\ Radius.Executor.Code d <> "" /\ Radius.Executor.Timeout d <> 0
  /\ (Radius.Executor.Server e <> "" -> Radius.Executor.Server d = Radius.Executor.Server e)
  /\ (Radius.Executor.Secret e <> "" -> Radius.Executor.Secret d = Radius.Executor.Secret e)
  /\ (Radius.Executor.Code e <> "" -> Radius.Executor.Code d = Radius.Executor.Code e)
  /\ (Radius.Executor.Timeout e <> 0 -> Radius.Executor.Timeout d = Radius.Executor.Timeout e)
  /\ Radius.Executor.Attributes d = Radius.Executor.Attributes e
  /\ Radius.defaults d = d.
Proof.
  destruct e as [server secret code timeout attributes].
  unfold Radius.defaults. cbn.
  destruct (String.eqb_spec server ""), (String.eqb_spec secret ""),
    (String.eqb_spec code ""), (Z.eqb_spec timeout 0);
    subst; cbn; repeat split; try congruence; try discriminate;
    repeat match goal with
    | H : ?s <> "" |- context [String.eqb ?s ""] =>
        rewrite (proj2 (String.eqb_neq s "") H)
    | H : ?t <> 0 |- context [Z.eqb ?t 0] =>
        rewrite (proj2 (Z.eqb_neq t 0) H)
    end; reflexivity.
Qed.

(** After the defaults of the DNS [Run], the record type is never
    empty and the timeout never 0; server and query are untouched, a
    given record type or timeout is kept, and applying the defaults
    again changes nothing. *)
Theorem dns_defaults_fill_every_gap (e : Dns.Executor.t) :
  let d := Dns.defaults e in
  Dns.Executor.QType d <> "" /\ Dns.Executor.Timeout d <> 0
  /\ Dns.Executor.Server d = Dns.Executor.Server e
  /\ Dns.Executor.Query d = Dns.Executor.Query e
  /\ (Dns.Executor.QType e <> "" -> Dns.Executor.QType d = Dns.Executor.QType e)
  /\ (Dns.Executor.Timeout e <> 0 -> Dns.Executor.Timeout d = Dns.Executor.Timeout e)
  /\ Dns.defaults d = d.
Proof.
  destruct e as [server query qtype timeout].
  unfold Dns.defaults. cbn.
  destruct (String.eqb_spec qtype ""), (Z.eqb_spec timeout 0);
    subst; cbn; repeat split; try congruence; try discriminate;
    repeat match goal with
    | H : ?s <> "" |- context [String.eqb ?s ""] =>
        rewrite (proj2 (String.eqb_neq s "") H)
    | H : ?t <> 0 |- context [Z.eqb ?t 0] =>
        rewrite (proj2 (Z.eqb_neq t 0) H)
    end; reflexivity.
Qed.

(** ** [addAttribute] *)

(** [addAttribute] either returns an error and has made no setter call
    on the packet, or returns nil and has made exactly one setter call,
    on the attribute that the table gives for the name: the log of the
    calls made on the packet grows by that one call.  It never changes
    the code or the secret of the packet. *)
Theorem addAttribute_adds_one_or_nothing packet name value :
  match Radius.addAttribute packet name value with
  | (packet', Some err) => packet' = packet
  | (packet', None) =>
      exists kind v,
        Spec.kindOf name = Some kind
        /\ packet' = Radius.Set_ (View.attrOf kind) v packet
        /\ Radius.Sets packet' = Radius.Sets packet ++ [(View.attrOf kind, v)]
        /\ Radius.PCode packet' = Radius.PCode packet
        /\ Radius.PSecret packet' = Radius.PSecret packet
  end.
Proof.
  rewrite addAttribute_table.
  destruct (Spec.kindOf name) as [[a|a|a label|a label vocabulary]|] eqn:K; simpl.
  - by eexists _, _.
  - by eexists _, _.
  - destruct (Atoi value); [ by eexists _, _ | reflexivity ].
  - destruct (switch value _ None); [ by eexists _, _ | reflexivity ].
  - reflexivity.
Qed.

(** For an attribute of the integer kind, a value that [strconv.Atoi]
    reads as [n] is handed over converted to [uint32]: [n] itself when
    it is within 0 .. 2^32 - 1, and otherwise, without any error, the
    number in that range that differs from [n] by a multiple of 2^32. *)
Theorem integer_attribute_wraps_to_uint32 packet name a label value n :
  Spec.kindOf name = Some (Spec.Int a label) ->
  Atoi value = Some n ->
  exists m,
    Radius.addAttribute packet name value
    = (Radius.Set_ a (Radius.Integer m) packet, None)
    /\ 0 <= m < 2 ^ 32
    /\ (exists k, n = m + k * 2 ^ 32)
    /\ (0 <= n < 2 ^ 32 -> m = n).
Proof.
  intros K N. exists (n mod 2 ^ 32).
  rewrite addAttribute_table, K. simpl. rewrite N. unfold uint32.
  split; [ reflexivity |]. split; [ apply Z.mod_pos_bound; lia |]. split.
  - exists (n / 2 ^ 32). pose proof (Z.div_mod n (2 ^ 32)). lia.
  - intros Hn. by apply Z.mod_small.
Qed.

(** A port of -1 is accepted and becomes 4294967295. *)
Lemma integer_attribute_wraps_to_uint32_witness :
  Radius.addAttribute
    {| Radius.PCode := 1; Radius.PSecret := "secret"; Radius.PNonce := 0;
       Radius.Sets := [] |} "NAS-Port" "-1"
  = ({| Radius.PCode := 1; Radius.PSecret := "secret"; Radius.PNonce := 0;
        Radius.Sets := [(Radius.NASPort, Radius.Integer 4294967295)] |}, None).
Proof.
  destruct (integer_attribute_wraps_to_uint32
              {| Radius.PCode := 1; Radius.PSecret := "secret"; Radius.PNonce := 0;
                 Radius.Sets := [] |}
              "NAS-Port" Radius.NASPort "NAS-Port" "-1" (-1))
    as (m & HA & Hm & [k Hk] & _).
  - reflexivity.
  - reflexivity.
  - rewrite HA. assert (m = 4294967295) as -> by lia. reflexivity.
Defined.

(** The empty string is accepted as the value of exactly the attributes
    of the raw-string and IP-address kinds: every integer attribute and
    every enumeration refuses it. *)
Theorem empty_value_refused_by_integers_and_enumerations name kind :
  Spec.kindOf name = Some kind ->
  Spec.refusal name "" = None
  <-> (exists a, kind = Spec.RawString a \/ kind = Spec.IPAddress a).
Proof.
  intros K. unfold Spec.refusal. rewrite addAttribute_table, K.
  pose proof (attributeTable_Forall
                (fun _ kind => match kind with
                               | Spec.Enum _ _ v => ~ In "" (map fst v)
                               | _ => True
                               end)) as T.
  specialize (T ltac:(repeat (apply Forall_cons; split;
                               [ cbn [snd]; try exact I; simpl; intuition discriminate |]);
                      by constructor) name kind K).
  destruct kind as [a|a|a label|a label vocabulary]; simpl.
  - split; [ intros _; exists a; by left | reflexivity ].
  - split; [ intros _; exists a; by right | reflexivity ].
  - split; [ discriminate | intros (b & [H|H]); discriminate H ].
  - apply switch_branches_None in T. rewrite T. simpl.
    split; [ discriminate | intros (b & [H|H]); discriminate H ].
Qed.

(** The empty user name is accepted, the empty port is refused. *)
Lemma empty_value_refused_by_integers_and_enumerations_witness :
  Spec.refusal "User-Name" "" = None
  /\ Spec.refusal "NAS-Port" "" = Some "invalid NAS-Port value: ".
Proof.
  split.
  - apply (empty_value_refused_by_integers_and_enumerations
             "User-Name" (Spec.RawString Radius.UserName)).
    + reflexivity.
    + exists Radius.UserName. by left.
  - reflexivity.
Defined.

(** ** The name tables *)

(** No two packet-code names resolve to the same code, and no two
    record-type names to the same type. *)
Theorem code_and_type_names_are_unambiguous :
  (forall a b code,
     Radius.parseCode a = Some code -> Radius.parseCode b = Some code -> a = b)
  /\ (forall a b type,
        Dns.stringToQType a = (type, None) -> Dns.stringToQType b = (type, None) ->
        a = b).
Proof.
  split.
  - intros a b code Ha Hb.
    assert (In a Spec.codeNames) as Ia.
    { destruct (In_dec string_dec a Spec.codeNames) as [H|H]; [ exact H |].
      apply parseCode_None in H. congruence. }
    assert (In b Spec.codeNames) as Ib.
    { destruct (In_dec string_dec b Spec.codeNames) as [H|H]; [ exact H |].
      apply parseCode_None in H. congruence. }
    simpl in Ia, Ib.
    repeat (destruct Ia as [<-|Ia]; [ injection Ha as <- |]); [ .. | destruct Ia ];
      (repeat (destruct Ib as [<-|Ib]; [ first [ reflexivity | discriminate Hb ] |]);
       destruct Ib).
  - intros a b type Ha Hb.
    assert (In a Spec.qtypeNames) as Ia.
    { apply stringToQType_supported. by rewrite Ha. }
    assert (In b Spec.qtypeNames) as Ib.
    { apply stringToQType_supported. by rewrite Hb. }
    simpl in Ia, Ib.
    repeat (destruct Ia as [<-|Ia]; [ injection Ha as <- |]); [ .. | destruct Ia ];
      (repeat (destruct Ib as [<-|Ib]; [ first [ reflexivity | discriminate Hb ] |]);
       destruct Ib).
Qed.

(** Access-Accept does not resolve to the code of Access-Reject. *)
Lemma code_and_type_names_are_unambiguous_witness :
  Radius.parseCode "Access-Accept" <> Some Radius.CodeAccessReject.
Proof.
  intros H.
  pose proof (proj1 code_and_type_names_are_unambiguous
                "Access-Accept" "Access-Reject" Radius.CodeAccessReject H eq_refl) as E.
  discriminate E.
Defined.

Lemma kindOf_attr_inj n1 n2 k1 k2 :
  Spec.kindOf n1 = Some k1 -> Spec.kindOf n2 = Some k2 ->
  View.attrOf k1 = View.attrOf k2 -> n1 = n2.
Proof.
  intros K1 K2 E.
  apply kindOf_In in K1. apply kindOf_In in K2.
  apply (in_map (fun entry => (fst entry, View.attrOf (snd entry)))) in K1, K2.
  cbn [fst snd] in K1, K2. rewrite E in K1.
  eapply (NoDup_snd_inj _ n1 n2 (View.attrOf k2)); [ | exact K1 | exact K2 ].
  rewrite map_map. cbn [snd].
  refine (bool_decide_unpack _ _). vm_compute. exact I.
Qed.

Lemma vocabulary_inj name a label vocabulary x y n :
  Spec.kindOf name = Some (Spec.Enum a label vocabulary) ->
  switch x (Spec.branches vocabulary) None = Some n ->
  switch y (Spec.branches vocabulary) None = Some n ->
  x = y.
Proof.
  intros K X Y.
  pose proof (attributeTable_Forall
                (fun _ kind => match kind with
                               | Spec.Enum _ _ v => NoDup (map snd v)
                               | _ => True
                               end)) as T.
  specialize (T ltac:(repeat (apply Forall_cons; split;
                               [ cbn [snd]; try exact I;
                                 refine (bool_decide_unpack _ _); vm_compute; exact I |]);
                      by constructor) name _ K).
  cbn in T. apply switch_branches_Some in X, Y.
  exact (NoDup_snd_inj _ x y n T X Y).
Qed.

Lemma Set_inj a x b y packet :
  Radius.Set_ a x packet = Radius.Set_ b y packet -> a = b /\ x = y.
Proof.
  unfold Radius.Set_. intros [= H]. apply app_inv_head in H.
  injection H as -> ->. by split.
Qed.

(** What a successful call of [addAttribute] has set, read off the
    table: the attribute of the kind of the name. *)
Lemma addAttribute_sets packet name value a x :
  Radius.addAttribute packet name value = (Radius.Set_ a x packet, None) ->
  exists kind, Spec.kindOf name = Some kind /\ View.attrOf kind = a.
Proof.
  rewrite addAttribute_table.
  destruct (Spec.kindOf name) as [[b|b|b label|b label vocabulary]|] eqn:K; simpl.
  - intros H. apply (f_equal fst) in H. cbn [fst] in H.
    apply Set_inj in H as [-> _]. by eexists.
  - intros H. apply (f_equal fst) in H. cbn [fst] in H.
    apply Set_inj in H as [-> _]. by eexists.
  - destruct (Atoi value); [ | discriminate ].
    intros H. apply (f_equal fst) in H. cbn [fst] in H.
    apply Set_inj in H as [-> _]. by eexists.
  - destruct (switch value _ None); [ | discriminate ].
    intros H. apply (f_equal fst) in H. cbn [fst] in H.
    apply Set_inj in H as [-> _]. by eexists.
  - discriminate.
Qed.

(** No two attribute names make [addAttribute] set the same attribute:
    two successful calls that set the same attribute were given the
    same name.  And for each of the seven enumerations no two value
    names stand for the same number: two successful calls under the
    name of an enumeration that hand over the same number were given
    the same value name.  Every successful call does make such a
    setter call, which for an enumeration hands over a number. *)
Theorem attribute_table_is_unambiguous :
  (forall p1 p2 n1 n2 v1 v2 a x1 x2,
     Radius.addAttribute p1 n1 v1 = (Radius.Set_ a x1 p1, None) ->
     Radius.addAttribute p2 n2 v2 = (Radius.Set_ a x2 p2, None) ->
     n1 = n2)
  /\ (forall p1 p2 name v1 v2 a1 a2 n,
        In name ["Service-Type"; "Framed-Protocol"; "Framed-Routing";
                 "Termination-Action"; "Acct-Status-Type"; "Acct-Authentic";
                 "Acct-Terminate-Cause"] ->
        Radius.addAttribute p1 name v1 = (Radius.Set_ a1 (Radius.Integer n) p1, None) ->
        Radius.addAttribute p2 name v2 = (Radius.Set_ a2 (Radius.Integer n) p2, None) ->
        v1 = v2)
  /\ (forall packet name value packet',
        Radius.addAttribute packet name value = (packet', None) ->
        exists a x,
          packet' = Radius.Set_ a x packet
          /\ (In name ["Service-Type"; "Framed-Protocol"; "Framed-Routing";
                       "Termination-Action"; "Acct-Status-Type"; "Acct-Authentic";
                       "Acct-Terminate-Cause"] ->
              exists n, x = Radius.Integer n)).
Proof.
  split; [ | split ]; cycle 2.
  - intros packet name value packet'. rewrite addAttribute_table.
    destruct (Spec.kindOf name) as [[b|b|b label|b label vocabulary]|] eqn:K; simpl.
    1, 2: intros [= <-]; eexists _, _; split; [ reflexivity |];
      intros Hname; simpl in Hname;
      repeat (destruct Hname as [<-|Hname]; [ discriminate K |]); destruct Hname.
    + destruct (Atoi value); [ | discriminate ].
      intros [= <-]. eexists _, _. split; [ reflexivity |]. by eexists.
    + destruct (switch value _ None); [ | discriminate ].
      intros [= <-]. eexists _, _. split; [ reflexivity |]. by eexists.
    + discriminate.
  - intros p1 p2 n1 n2 v1 v2 a x1 x2 H1 H2.
    apply addAttribute_sets in H1 as (k1 & K1 & E1).
    apply addAttribute_sets in H2 as (k2 & K2 & E2).
    apply (kindOf_attr_inj n1 n2 k1 k2 K1 K2). congruence.
  - intros p1 p2 name v1 v2 a1 a2 n Hname H1 H2.
    assert (exists a label vocabulary,
              Spec.kindOf name = Some (Spec.Enum a label vocabulary)) as (a & label & voc & K).
    { simpl in Hname.
      repeat (destruct Hname as [<-|Hname]; [ by eexists _, _, _ |]). destruct Hname. }
    rewrite addAttribute_table, K in H1, H2. simpl in H1, H2.
    destruct (switch v1 _ None) as [m1|] eqn:S1; [ | discriminate H1 ].
    destruct (switch v2 _ None) as [m2|] eqn:S2; [ | discriminate H2 ].
    apply (f_equal fst) in H1, H2. cbn [fst] in H1, H2.
    apply Set_inj in H1 as [_ [= ->]]. apply Set_inj in H2 as [_ [= ->]].
    exact (vocabulary_inj name a label voc v1 v2 n K S1 S2).
Qed.

(** A successful call for Framed-MTU has not set NAS-Port, and the
    Acct-Status-Type "Stop" is not handed over as the number of "Start". *)
Lemma attribute_table_is_unambiguous_witness :
  Radius.addAttribute
    {| Radius.PCode := 1; Radius.PSecret := "secret"; Radius.PNonce := 0;
       Radius.Sets := [] |} "Framed-MTU" "1500"
  <> (Radius.Set_ Radius.NASPort (Radius.Integer 1500)
        {| Radius.PCode := 1; Radius.PSecret := "secret"; Radius.PNonce := 0;
           Radius.Sets := [] |}, None)
  /\ Radius.addAttribute
       {| Radius.PCode := 1; Radius.PSecret := "secret"; Radius.PNonce := 0;
          Radius.Sets := [] |} "Acct-Status-Type" "Stop"
     <> (Radius.Set_ Radius.AcctStatusType (Radius.Integer 1)
           {| Radius.PCode := 1; Radius.PSecret := "secret"; Radius.PNonce := 0;
              Radius.Sets := [] |}, None).
Proof.
  split; intros H.
  - pose proof (proj1 attribute_table_is_unambiguous
                  {| Radius.PCode := 1; Radius.PSecret := "secret"; Radius.PNonce := 0;
                     Radius.Sets := [] |}
                  {| Radius.PCode := 1; Radius.PSecret := "secret"; Radius.PNonce := 0;
                     Radius.Sets := [] |}
                  "NAS-Port" "Framed-MTU" "1500" "1500" Radius.NASPort
                  (Radius.Integer 1500) (Radius.Integer 1500) eq_refl H) as N.
    discriminate N.
  - pose proof (proj1 (proj2 attribute_table_is_unambiguous)
                  {| Radius.PCode := 1; Radius.PSecret := "secret"; Radius.PNonce := 0;
                     Radius.Sets := [] |}
                  {| Radius.PCode := 1; Radius.PSecret := "secret"; Radius.PNonce := 0;
                     Radius.Sets := [] |}
                  "Acct-Status-Type" "Start" "Stop" Radius.AcctStatusType
                  Radius.AcctStatusType 1 ltac:(simpl; tauto) eq_refl H) as N.
    discriminate N.
Defined.

(** ** The attribute loop *)

Lemma addAttribute_Sets packet name value :
  Radius.Sets (fst (Radius.addAttribute packet name value))
  = Radius.Sets packet ++ View.added name value.
Proof.
  unfold View.added. rewrite !addAttribute_table.
  destruct (Spec.kindOf name) as [[a|a|a label|a label vocabulary]|]; simpl;
    try reflexivity; try (by rewrite app_nil_r).
  - destruct (Atoi value); simpl; [ reflexivity | by rewrite app_nil_r ].
  - destruct (switch value _ None); simpl; [ reflexivity | by rewrite app_nil_r ].
Qed.

Lemma added_accepted name value :
  Spec.refusal name value = None -> length (View.added name value) = 1%nat.
Proof.
  unfold Spec.refusal, View.added. rewrite !addAttribute_table.
  destruct (Spec.kindOf name) as [[a|a|a label|a label vocabulary]|]; simpl;
    try reflexivity; try discriminate.
  - destruct (Atoi value); simpl; [ reflexivity | discriminate ].
  - destruct (switch value _ None); simpl; [ reflexivity | discriminate ].
Qed.

Lemma addAttribute_header packet name value :
  Radius.PCode (fst (Radius.addAttribute packet name value)) = Radius.PCode packet
  /\ Radius.PSecret (fst (Radius.addAttribute packet name value)) = Radius.PSecret packet
  /\ Radius.PNonce (fst (Radius.addAttribute packet name value)) = Radius.PNonce packet.
Proof.
  rewrite addAttribute_table.
  destruct (Spec.kindOf name) as [[a|a|a label|a label vocabulary]|]; simpl;
    try (by repeat split).
  - destruct (Atoi value); by repeat split.
  - destruct (switch value _ None); by repeat split.
Qed.

Lemma addAttributes_success packet visit packet' :
  Radius.addAttributes packet visit = inr packet' ->
  Radius.Sets packet' = Radius.Sets packet ++ flat_map (fun kv => View.added (fst kv) (snd kv)) visit
  /\ Radius.PCode packet' = Radius.PCode packet
  /\ Radius.PSecret packet' = Radius.PSecret packet
  /\ Radius.PNonce packet' = Radius.PNonce packet.
Proof.
  revert packet. induction visit as [|[name value] rest IH]; intros packet; simpl.
  - intros [= <-]. by rewrite app_nil_r.
  - pose proof (addAttribute_Sets packet name value) as HS.
    pose proof (addAttribute_header packet name value) as (HC & HK & HN).
    destruct (Radius.addAttribute packet name value) as [p1 [err|]]; [ discriminate |].
    simpl in *. intros H. destruct (IH _ H) as (-> & -> & -> & ->).
    rewrite HS, <- app_assoc. by repeat split.
Qed.

Lemma added_length visit :
  Forall (fun kv => Spec.refusal (fst kv) (snd kv) = None) visit ->
  length (flat_map (fun kv => View.added (fst kv) (snd kv)) visit) = length visit.
Proof.
  induction 1 as [|[n v] rest Hn _ IH]; simpl; [ reflexivity |].
  simpl in Hn. rewrite length_app, IH, (added_accepted n v Hn). reflexivity.
Qed.

(** When the loop "Add attributes" succeeds, the packet has received
    exactly one setter call for each attribute, in the order of the
    visit and after the calls it already had; code and secret are
    unchanged. *)
Theorem attribute_loop_adds_each_attribute_once packet visit packet' :
  Radius.addAttributes packet visit = inr packet' ->
  Radius.Sets packet'
  = Radius.Sets packet ++ flat_map (fun kv => View.added (fst kv) (snd kv)) visit
  /\ Forall (fun kv => length (View.added (fst kv) (snd kv)) = 1%nat) visit
  /\ length (Radius.Sets packet') = (length (Radius.Sets packet) + length visit)%nat
  /\ Radius.PCode packet' = Radius.PCode packet
  /\ Radius.PSecret packet' = Radius.PSecret packet.
Proof.
  intros H. destruct (addAttributes_success _ _ _ H) as (HS & HC & HK & _).
  pose proof (addAttributes_firstRefusal packet visit) as F. rewrite H in F.
  apply firstRefusal_None in F.
  repeat split; try assumption.
  - eapply Forall_impl; [ exact F |]. intros [n v]. apply added_accepted.
  - rewrite HS, length_app, (added_length _ F). reflexivity.
Qed.

(** The three attributes of [TestRadiusExecutor] give three setter calls. *)
Lemma attribute_loop_adds_each_attribute_once_witness :
  exists packet',
    Radius.addAttributes
      {| Radius.PCode := 1; Radius.PSecret := "secret"; Radius.PNonce := 0;
         Radius.Sets := [] |}
      [("User-Name", "testuser"); ("User-Password", "testpass");
       ("NAS-IP-Address", "192.168.1.1")] = inr packet'
    /\ length (Radius.Sets packet') = 3%nat.
Proof.
  eexists. split; [ reflexivity |].
  refine (proj1 (proj2 (proj2
    (attribute_loop_adds_each_attribute_once
       {| Radius.PCode := 1; Radius.PSecret := "secret"; Radius.PNonce := 0;
          Radius.Sets := [] |}
       [("User-Name", "testuser"); ("User-Password", "testpass");
        ("NAS-IP-Address", "192.168.1.1")] _ _)))).
  reflexivity.
Defined.

(** Whether the loop "Add attributes" fails does not depend on the
    order in which Go visits the map, only the attribute it names does;
    and when it succeeds the packets of two orders carry the same
    setter calls, up to their order. *)
Theorem attribute_loop_outcome_is_order_independent packet visit1 visit2 :
  visit1 ≡ₚ visit2 ->
  match Radius.addAttributes packet visit1, Radius.addAttributes packet visit2 with
  | inr p1, inr p2 => Radius.Sets p1 ≡ₚ Radius.Sets p2
  | inl (n1, _), inl (n2, _) =>
      (exists v, In (n1, v) visit2) /\ (exists v, In (n2, v) visit1)
  | _, _ => False
  end.
Proof.
  intros P.
  pose proof (addAttributes_firstRefusal packet visit1) as F1.
  pose proof (addAttributes_firstRefusal packet visit2) as F2.
  destruct (Radius.addAttributes packet visit1) as [[n1 e1]|p1] eqn:A1,
           (Radius.addAttributes packet visit2) as [[n2 e2]|p2] eqn:A2.
  - apply firstRefusal_split in F1 as (pre1 & v1 & post1 & E1 & _).
    apply firstRefusal_split in F2 as (pre2 & v2 & post2 & E2 & _).
    split.
    + exists v1. apply list_elem_of_In. rewrite <- P, E1. apply list_elem_of_In, in_elt.
    + exists v2. apply list_elem_of_In. rewrite P, E2. apply list_elem_of_In, in_elt.
  - apply firstRefusal_None in F2. rewrite <- P in F2.
    apply firstRefusal_None in F2. congruence.
  - apply firstRefusal_None in F1. rewrite P in F1.
    apply firstRefusal_None in F1. congruence.
  - apply addAttributes_success in A1 as (-> & _). apply addAttributes_success in A2 as (-> & _).
    apply Permutation_app_head, Permutation_flat_map, P.
Qed.

Lemma attribute_loop_outcome_is_order_independent_witness :
  match
    Radius.addAttributes
      {| Radius.PCode := 1; Radius.PSecret := "secret"; Radius.PNonce := 0;
         Radius.Sets := [] |} [("User-Name", "u"); ("NAS-Port", "x")],
    Radius.addAttributes
      {| Radius.PCode := 1; Radius.PSecret := "secret"; Radius.PNonce := 0;
         Radius.Sets := [] |} [("NAS-Port", "x"); ("User-Name", "u")]
  with
  | inr p1, inr p2 => Radius.Sets p1 ≡ₚ Radius.Sets p2
  | inl (n1, _), inl (n2, _) =>
      (exists v, In (n1, v) [("NAS-Port", "x"); ("User-Name", "u")])
      /\ (exists v, In (n2, v) [("User-Name", "u"); ("NAS-Port", "x")])
  | _, _ => False
  end.
Proof.
  apply (attribute_loop_outcome_is_order_independent
           {| Radius.PCode := 1; Radius.PSecret := "secret"; Radius.PNonce := 0;
              Radius.Sets := [] |}
           [("User-Name", "u"); ("NAS-Port", "x")] [("NAS-Port", "x"); ("User-Name", "u")]).
  apply perm_swap.
Defined.

(** ** The RADIUS [Run] *)

(** The deadline that [Run] derives for its exchanges: [timeout]
    seconds after the reading [now] of the clock, or the deadline of the
    context it was given when that is earlier. *)
Lemma seconds_do_not_wrap timeout :
  - 9223372036 <= timeout <= 9223372036 ->
  wrap64 (timeout * Second) = timeout * 1000000000.
Proof.
  intros H. unfold wrap64, Second.
  rewrite Z.mod_small; lia.
Qed.

(** The RADIUS [Run] makes no exchange when the descriptor does not
    decode, when the code is not supported or when an attribute is
    refused, and exactly one otherwise: with the defaulted server, a
    packet of the resolved code and the defaulted secret that carries
    one setter call per attribute of the map, in visiting order. *)
Theorem radius_sends_at_most_one_packet
    lib ctx step (w : World Radius.Call Radius.Reply) :
  match Radius.Decode lib step with
  | inl _ => sent (snd (Radius.Run lib ctx step w)) = sent w
  | inr e =>
      let visit := order w (map_to_list (Radius.Executor.Attributes e)) in
      match Radius.parseCode (Radius.Executor.Code (Radius.defaults e)),
            Spec.firstRefusal visit with
      | Some code, None =>
          exists ctx' packet,
            sent (snd (Radius.Run lib ctx step w))
            = sent w ++ [(ctx', packet, Radius.Executor.Server (Radius.defaults e))]
            /\ Radius.PCode packet = code
            /\ Radius.PSecret packet = Radius.Executor.Secret (Radius.defaults e)
            /\ Radius.Sets packet
               = flat_map (fun kv => View.added (fst kv) (snd kv)) visit
            /\ length (Radius.Sets packet) = length visit
      | _, _ => sent (snd (Radius.Run lib ctx step w)) = sent w
      end
  end.
Proof.
  run. destruct (Radius.Decode lib step) as [err|e]; [ reflexivity |]. run.
  destruct (Radius.parseCode _) as [code|]; [ | reflexivity ]. run.
  match goal with |- context [Radius.addAttributes ?p ?l] =>
    pose proof (addAttributes_firstRefusal p l) as F;
    destruct (Radius.addAttributes p l) as [[n err]|packet] eqn:A
  end.
  - rewrite F. reflexivity.
  - rewrite F. run.
    destruct (addAttributes_success _ _ _ A) as (HS & HC & HK & _).
    assert (length (Radius.Sets packet)
            = length (order w (map_to_list (Radius.Executor.Attributes e)))) as HL.
    { rewrite HS. apply added_length, firstRefusal_None, F. }
    simpl in HS, HL, HC, HK.
    eexists _, packet.
    split; [ | split; [ exact HC | split; [ exact HK | split; [ exact HS |] ] ] ].
    + destruct (wire w 0%nat) as [err|response]; run; [ reflexivity |].
      destruct (0 <? _); reflexivity.
    + exact HL.
Qed.

(** With the descriptor of [TestRadiusExecutor], there is one exchange,
    with "localhost:1812", and its packet has received three setter
    calls. *)
Lemma radius_sends_at_most_one_packet_witness :
  exists ctx' packet,
    sent (snd (Radius.Run Sample.radiusLib Background Sample.accessRequest Sample.silent))
    = [(ctx', packet, "localhost:1812")]
    /\ length (Radius.Sets packet) = 3%nat.
Proof.
  pose proof (radius_sends_at_most_one_packet
                Sample.radiusLib Background Sample.accessRequest Sample.silent) as H.
  vm_compute in H. destruct H as (ctx' & packet & HS & _ & _ & _ & HL).
  exists ctx', packet. split; [ exact HS | exact HL ].
Defined.

(** An unsupported packet-code name gives the error that names it, no
    result, and nothing is sent, whatever the attributes are. *)
Theorem radius_unsupported_code_is_fatal
    lib ctx step (w : World Radius.Call Radius.Reply) e :
  Radius.Decode lib step = inr e ->
  Radius.Executor.Code e <> "" ->
  ~ In (Radius.Executor.Code e) Spec.codeNames ->
  fst (Radius.Run lib ctx step w)
    = (None, Some ("unsupported RADIUS code: " +:+ Radius.Executor.Code e))
  /\ sent (snd (Radius.Run lib ctx step w)) = sent w.
Proof.
  intros D N C. run. rewrite D. run.
  apply String.eqb_neq in N. cbn [Radius.defaults Radius.Executor.Code]. rewrite N.
  apply parseCode_None in C. rewrite C. by split.
Qed.

(** The descriptor of [TestRadiusExecutorInvalidCode]. *)
Lemma radius_unsupported_code_is_fatal_witness :
  fst (Radius.Run Sample.radiusLib Background Sample.invalidCode Sample.silent)
  = (None, Some "unsupported RADIUS code: Invalid-Code").
Proof.
  refine (proj1 (radius_unsupported_code_is_fatal
                   Sample.radiusLib Background Sample.invalidCode Sample.silent
                   {| Radius.Executor.Server := ""; Radius.Executor.Secret := "";
                      Radius.Executor.Code := "Invalid-Code"; Radius.Executor.Timeout := 0;
                      Radius.Executor.Attributes := ∅ |} _ _ _)).
  - reflexivity.
  - discriminate.
  - simpl. intuition discriminate.
Defined.

(** [Result.Attributes] of a response holds exactly the reply
    attributes User-Name, Reply-Message and Acct-Session-Id that are
    not empty, each under its name, and no other key. *)
Theorem extract_keeps_the_non_empty_attributes (response : Radius.Response) key :
  Radius.extract response !! key
  = if String.eqb key "User-Name" then
      if String.eqb (Radius.UserName_GetString response) "" then None
      else Some (Radius.UserName_GetString response)
    else if String.eqb key "Reply-Message" then
      if String.eqb (Radius.ReplyMessage_GetString response) "" then None
      else Some (Radius.ReplyMessage_GetString response)
    else if String.eqb key "Acct-Session-Id" then
      if String.eqb (Radius.AcctSessionID_GetString response) "" then None
      else Some (Radius.AcctSessionID_GetString response)
    else None.
Proof.
  unfold Radius.extract.
  destruct (String.eqb_spec key "User-Name") as [->|N1];
    [ | destruct (String.eqb_spec key "Reply-Message") as [->|N2];
        [ | destruct (String.eqb_spec key "Acct-Session-Id") as [->|N3] ] ];
    destruct (String.eqb (Radius.UserName_GetString response) ""),
             (String.eqb (Radius.ReplyMessage_GetString response) ""),
             (String.eqb (Radius.AcctSessionID_GetString response) "");
    by simplify_map_eq.
Qed.

(** When the server responds, the result has an empty [Err], the name
    of the response code, the non-empty reply attributes (a non-nil map
    even when there are none), the tree of code and attributes as
    [SystemoutJSON], and the elapsed time; the summary is the line
    "RADIUS Response: <code>" alone when there are no attributes. *)
Theorem radius_response_is_reported
    lib ctx step (w : World Radius.Call Radius.Reply) e response :
  Radius.Decode lib step = inr e ->
  In (Radius.Executor.Code (Radius.defaults e)) Spec.codeNames ->
  Spec.firstRefusal (order w (map_to_list (Radius.Executor.Attributes e))) = None ->
  wire w 0%nat = inr response ->
  exists r,
    fst (Radius.Run lib ctx step w) = (Some r, None)
    /\ Radius.Result.Err r = ""
    /\ Radius.Result.Code r = Radius.Code_String lib (Radius.RCode response)
    /\ Radius.Result.Attributes r = Some (Radius.extract response)
    /\ Radius.Result.SystemoutJSON r
       = Some (Map {[ "code" := Str (Radius.Code_String lib (Radius.RCode response));
                      "attributes" := Map (Str <$> Radius.extract response) ]})
    /\ Radius.Result.TimeSeconds r = Sub (clock w 2%nat) (clock w 0%nat)
    /\ (Radius.extract response = ∅ ->
        Radius.Result.Systemout r
        = "RADIUS Response: " +:+ Radius.Code_String lib (Radius.RCode response)).
Proof.
  intros D C F X. destruct (codeNames_parseCode _ C) as [code P].
  run. rewrite D. run. rewrite P. run.
  match goal with |- context [Radius.addAttributes ?p ?l] =>
    pose proof (addAttributes_firstRefusal p l) as A;
    destruct (Radius.addAttributes p l) as [[n' err']|packet]
  end; [ by rewrite F in A |].
  run. rewrite X. run.
  destruct (0 <? Z.of_nat (size (Radius.extract response))) eqn:Z; run;
    (eexists; repeat split).
  intros E. rewrite E in Z. discriminate Z.
Qed.

(** An Access-Accept with a reply message. *)
Lemma radius_response_is_reported_witness :
  exists r,
    fst (Radius.Run Sample.radiusLib Background Sample.accessRequest
           (Sample.world (fun _ => inr {| Radius.RCode := 2;
                                          Radius.UserName_GetString := "";
                                          Radius.ReplyMessage_GetString := "welcome";
                                          Radius.AcctSessionID_GetString := "" |})))
    = (Some r, None)
    /\ Radius.Result.Code r = "Access-Accept"
    /\ Radius.Result.Attributes r = Some {[ "Reply-Message" := "welcome" ]}.
Proof.
  destruct (radius_response_is_reported
              Sample.radiusLib Background Sample.accessRequest
              (Sample.world (fun _ => inr {| Radius.RCode := 2;
                                             Radius.UserName_GetString := "";
                                             Radius.ReplyMessage_GetString := "welcome";
                                             Radius.AcctSessionID_GetString := "" |}))
              {| Radius.Executor.Server := "localhost:1812";
                 Radius.Executor.Secret := "secret";
                 Radius.Executor.Code := "Access-Request";
                 Radius.Executor.Timeout := 5;
                 Radius.Executor.Attributes :=
                   {[ "User-Name" := "testuser"; "User-Password" := "testpass";
                      "NAS-IP-Address" := "192.168.1.1" ]} |}
              {| Radius.RCode := 2; Radius.UserName_GetString := "";
                 Radius.ReplyMessage_GetString := "welcome";
                 Radius.AcctSessionID_GetString := "" |})
    as (r & HR & _ & HC & HA & _).
  - reflexivity.
  - simpl. tauto.
  - vm_compute. reflexivity.
  - reflexivity.
  - exists r. split; [ exact HR |]. split; [ exact HC | exact HA ].
Defined.

(** A transport error of the RADIUS exchange leaves the response fields
    of the result unset: no code, no attributes (a nil map), no summary;
    the error text, the request and the elapsed time are recorded. *)
Theorem radius_transport_error_is_reported
    lib ctx step (w : World Radius.Call Radius.Reply) e err :
  Radius.Decode lib step = inr e ->
  In (Radius.Executor.Code (Radius.defaults e)) Spec.codeNames ->
  Spec.firstRefusal (order w (map_to_list (Radius.Executor.Attributes e))) = None ->
  wire w 0%nat = inl err ->
  fst (Radius.Run lib ctx step w)
  = (Some {| Radius.Result.Systemout := ""; Radius.Result.SystemoutJSON := None;
             Radius.Result.Systemerr := ""; Radius.Result.SystemerrJSON := None;
             Radius.Result.Err := err; Radius.Result.Code := "";
             Radius.Result.TimeSeconds := Sub (clock w 2%nat) (clock w 0%nat);
             Radius.Result.Attributes := None;
             Radius.Result.Request := Some (Spec.request (Radius.defaults e)) |}, None).
Proof.
  intros D C F X. destruct (codeNames_parseCode _ C) as [code P].
  run. rewrite D. run. rewrite P. run.
  match goal with |- context [Radius.addAttributes ?p ?l] =>
    pose proof (addAttributes_firstRefusal p l) as A;
    destruct (Radius.addAttributes p l) as [[n' err']|packet]
  end; [ by rewrite F in A |].
  run. rewrite X. reflexivity.
Qed.

Lemma radius_transport_error_is_reported_witness :
  exists r,
    fst (Radius.Run Sample.radiusLib Background Sample.accessRequest Sample.silent)
    = (Some r, None)
    /\ Radius.Result.TimeSeconds r = 14
    /\ Radius.Result.Attributes r = None.
Proof.
  eexists. split; [ | split ].
  - apply (radius_transport_error_is_reported
             Sample.radiusLib Background Sample.accessRequest Sample.silent
             {| Radius.Executor.Server := "localhost:1812";
                Radius.Executor.Secret := "secret";
                Radius.Executor.Code := "Access-Request";
                Radius.Executor.Timeout := 5;
                Radius.Executor.Attributes :=
                  {[ "User-Name" := "testuser"; "User-Password" := "testpass";
                     "NAS-IP-Address" := "192.168.1.1" ]} |}
             "read udp 127.0.0.1:1812: i/o timeout").
    + reflexivity.
    + simpl. tauto.
    + vm_compute. reflexivity.
    + reflexivity.
  - reflexivity.
  - reflexivity.
Defined.

(** ** The DNS [Run] *)

(** The DNS [Run] makes no exchange when the server is missing or the
    record type is not supported; otherwise it makes one UDP exchange,
    followed by one TCP exchange exactly when the UDP response is
    truncated, and never more.  Every exchange goes to the configured
    server under one and the same derived context, and carries a
    recursion-desired message with the single question for the
    fully-qualified query name, the resolved type and class IN. *)
Theorem dns_exchanges_are_udp_then_tcp
    lib ctx step (w : World Dns.Call Dns.Reply) e :
  Dns.Decode lib step = inr e ->
  let e' := Dns.defaults e in
  let d := clock w 1%nat + wrap64 (Dns.Executor.Timeout e' * Second) in
  let ctx' := {| Deadline := Some (match Deadline ctx with
                                   | Some cur => if cur <? d then cur else d
                                   | None => d
                                   end) |} in
  let call net id :=
    {| Dns.Net := net; Dns.Ctx := ctx';
       Dns.Sent := Dns.question id (Dns.Fqdn lib (Dns.Executor.Query e))
                     (fst (Dns.stringToQType (Dns.Executor.QType e')));
       Dns.Addr := Dns.Executor.Server e |} in
  sent (snd (Dns.Run lib ctx step w))
  = sent w ++
    (if String.eqb (Dns.Executor.Server e) "" then []
     else match snd (Dns.stringToQType (Dns.Executor.QType e')) with
          | Some _ => []
          | None =>
              call "udp" (random w 0%nat)
              :: match wire w 0%nat with
                 | inr (udp, _) =>
                     if Dns.Truncated udp then [call "tcp" (random w 1%nat)] else []
                 | inl _ => []
                 end
          end).
Proof.
  intros D. cbv zeta. run. rewrite D.
  destruct (String.eqb _ ""); [ by rewrite app_nil_r |]. run.
  destruct (Dns.stringToQType _) as [qType [err|]]; cbn [fst snd];
    [ by rewrite app_nil_r |]. run.
  destruct (wire w 0%nat) as [err|[udp rtt]]; run; [ reflexivity |].
  destruct (Dns.Truncated udp); run; [ | reflexivity ].
  destruct (wire w 1%nat) as [tcpErr|[tcp tcpRtt]]; run;
    [ by rewrite <- app_assoc |].
  destruct (Dns.Truncated tcp); by rewrite <- app_assoc.
Qed.

(** A complete UDP answer: one exchange, over UDP. *)
Lemma dns_exchanges_are_udp_then_tcp_witness :
  map Dns.Net (sent (snd (Dns.Run Sample.dnsLib Background Sample.dnsDefaults
                            Sample.answered))) = ["udp"]
  /\ map Dns.Net (sent (snd (Dns.Run Sample.dnsLib Background Sample.dnsDefaults
                               Sample.unreachable))) = ["udp"].
Proof.
  split.
  - rewrite (dns_exchanges_are_udp_then_tcp
               Sample.dnsLib Background Sample.dnsDefaults Sample.answered
               {| Dns.Executor.Server := "8.8.8.8:53"; Dns.Executor.Query := "example.com";
                  Dns.Executor.QType := ""; Dns.Executor.Timeout := 0 |} eq_refl).
    reflexivity.
  - rewrite (dns_exchanges_are_udp_then_tcp
               Sample.dnsLib Background Sample.dnsDefaults Sample.unreachable
               {| Dns.Executor.Server := "8.8.8.8:53"; Dns.Executor.Query := "example.com";
                  Dns.Executor.QType := ""; Dns.Executor.Timeout := 0 |} eq_refl).
    reflexivity.
Defined.

(** The timeout of a descriptor counts seconds: for a timeout of up to
    9223372036 seconds (0 standing for the default of 5) and a context
    without deadline, every exchange of the DNS [Run] carries the
    deadline that many seconds after the clock reading taken when the
    context is derived. *)
Theorem dns_deadline_is_timeout_seconds
    lib step (w : World Dns.Call Dns.Reply) e :
  Dns.Decode lib step = inr e ->
  0 <= Dns.Executor.Timeout e <= 9223372036 ->
  let seconds := if Dns.Executor.Timeout e =? 0 then 5 else Dns.Executor.Timeout e in
  exists calls,
    sent (snd (Dns.Run lib Background step w)) = sent w ++ calls
    /\ Forall (fun c => Deadline (Dns.Ctx c)
                        = Some (clock w 1%nat + seconds * 1000000000)) calls.
Proof.
  intros D T. cbv zeta.
  assert (wrap64 (Dns.Executor.Timeout (Dns.defaults e) * Second)
          = (if Dns.Executor.Timeout e =? 0 then 5 else Dns.Executor.Timeout e) * 1000000000)
    as W.
  { apply seconds_do_not_wrap. cbn. destruct (Z.eqb_spec (Dns.Executor.Timeout e) 0); lia. }
  run. rewrite D, W.
  destruct (String.eqb _ ""); [ exists []; by rewrite app_nil_r |]. run.
  destruct (Dns.stringToQType _) as [qType [err|]]; [ exists []; by rewrite app_nil_r |].
  run.
  destruct (wire w 0%nat) as [err|[udp rtt]]; run;
    [ eexists; split; [ reflexivity | by repeat constructor ] |].
  destruct (Dns.Truncated udp); run;
    [ | eexists; split; [ reflexivity | by repeat constructor ] ].
  destruct (wire w 1%nat) as [tcpErr|[tcp tcpRtt]]; run;
    [ eexists; split; [ by rewrite <- app_assoc | by repeat constructor ] |].
  destruct (Dns.Truncated tcp);
    (eexists; split; [ by rewrite <- app_assoc | by repeat constructor ]).
Qed.

(** With the default timeout the deadline is 5 seconds after 1007. *)
Lemma dns_deadline_is_timeout_seconds_witness :
  exists calls,
    sent (snd (Dns.Run Sample.dnsLib Background Sample.dnsDefaults
                 Sample.truncatedThenComplete)) = calls
    /\ Forall (fun c => Deadline (Dns.Ctx c) = Some 5000001007) calls.
Proof.
  destruct (dns_deadline_is_timeout_seconds
              Sample.dnsLib Sample.dnsDefaults Sample.truncatedThenComplete
              {| Dns.Executor.Server := "8.8.8.8:53"; Dns.Executor.Query := "example.com";
                 Dns.Executor.QType := ""; Dns.Executor.Timeout := 0 |})
    as (calls & HS & HF).
  - reflexivity.
  - simpl. lia.
  - exists calls. split; [ exact HS | exact HF ].
Defined.

(** A result of the DNS [Run] carries a message exactly when the UDP
    exchange returned a response; when it failed, or the record type is
    not supported, [Message] and [SystemoutJSON] are nil and [RCode] and
    [Systemout] are empty. *)
Theorem dns_message_iff_response
    lib ctx step (w : World Dns.Call Dns.Reply) e :
  Dns.Decode lib step = inr e ->
  Dns.Executor.Server e <> "" ->
  exists r,
    fst (Dns.Run lib ctx step w) = (Some r, None)
    /\ (Dns.Result.Message r <> None
        <-> snd (Dns.stringToQType (Dns.Executor.QType (Dns.defaults e))) = None
            /\ exists udp rtt, wire w 0%nat = inr (udp, rtt))
    /\ (Dns.Result.Message r = None ->
        Dns.Result.SystemoutJSON r = None /\ Dns.Result.RCode r = ""
        /\ Dns.Result.Systemout r = "").
Proof.
  intros D S. eexists. split; [ exact (dns_Run_outcome lib ctx step w e D S) |].
  cbv zeta.
  destruct (snd (Dns.stringToQType _)) as [err|].
  { split; [ split; [ intros H; by destruct H | intros [[=] _] ] | by intros _ ]. }
  destruct (wire w 0%nat) as [err|[udp rtt]].
  { split; [ split; [ intros H; by destruct H | intros (_ & u & t & [=]) ] | by intros _ ]. }
  assert (forall r : Dns.Result.t,
            (exists x, Dns.Result.Message r = Some x) ->
            (Dns.Result.Message r <> None
             <-> @None error = None /\ exists u t, @inr error _ (udp, rtt) = inr (u, t))
            /\ (Dns.Result.Message r = None ->
                Dns.Result.SystemoutJSON r = None /\ Dns.Result.RCode r = ""
                /\ Dns.Result.Systemout r = "")) as Hsome.
  { intros r [x Hx]. rewrite Hx. split; [ | discriminate ].
    split; [ intros _; split; [ reflexivity | by eexists _, _ ] | discriminate ]. }
  destruct (Dns.Truncated udp).
  - destruct (wire w 1%nat) as [tcpErr|[tcp tcpRtt]]; [ apply Hsome; by eexists |].
    destruct (Dns.Truncated tcp); apply Hsome; by eexists.
  - apply Hsome; by eexists.
Qed.

Lemma dns_message_iff_response_witness :
  exists r,
    fst (Dns.Run Sample.dnsLib Background Sample.dnsDefaults Sample.unreachable)
    = (Some r, None)
    /\ Dns.Result.Message r = None.
Proof.
  destruct (dns_message_iff_response
              Sample.dnsLib Background Sample.dnsDefaults Sample.unreachable
              {| Dns.Executor.Server := "8.8.8.8:53"; Dns.Executor.Query := "example.com";
                 Dns.Executor.QType := ""; Dns.Executor.Timeout := 0 |})
    as (r & HR & HM & _).
  - reflexivity.
  - discriminate.
  - exists r. split; [ exact HR |].
    destruct (Dns.Result.Message r) as [m|] eqn:M; [ | reflexivity ].
    exfalso. destruct (proj1 HM ltac:(discriminate)) as (_ & udp & rtt & X).
    discriminate X.
Defined.

(** When a response is received, the message of the result has its
    "truncated" flag set exactly when [Err] is not empty: a truncated
    message is never reported with an empty error, and a complete one
    never with an error. *)
Theorem dns_truncated_message_has_an_error
    lib ctx step (w : World Dns.Call Dns.Reply) e udp rtt :
  Dns.Decode lib step = inr e ->
  Dns.Executor.Server e <> "" ->
  snd (Dns.stringToQType (Dns.Executor.QType (Dns.defaults e))) = None ->
  wire w 0%nat = inr (udp, rtt) ->
  exists r tree,
    fst (Dns.Run lib ctx step w) = (Some r, None)
    /\ Dns.Result.Message r = Some (Map tree)
    /\ tree !! "truncated" = Some (Bool (negb (String.eqb (Dns.Result.Err r) ""))).
Proof.
  intros D S Q X. rewrite (dns_Run_outcome lib ctx step w e D S).
  cbv zeta. rewrite Q, X.
  destruct (Dns.Truncated udp) eqn:T.
  - destruct (wire w 1%nat) as [tcpErr|[tcp tcpRtt]].
    + eexists _, _. split; [ reflexivity |]. split; [ reflexivity |]. cbn. by rewrite T.
    + destruct (Dns.Truncated tcp) eqn:T'.
      * eexists _, _. split; [ reflexivity |]. split; [ reflexivity |]. cbn. by rewrite T.
      * eexists _, _. split; [ reflexivity |]. split; [ reflexivity |]. cbn. by rewrite T'.
  - eexists _, _. split; [ reflexivity |]. split; [ reflexivity |]. cbn. by rewrite T.
Qed.

(** Both responses truncated: the flag is set and [Err] is not empty. *)
Lemma dns_truncated_message_has_an_error_witness :
  exists r tree,
    fst (Dns.Run Sample.dnsLib Background Sample.dnsDefaults Sample.truncatedTwice)
    = (Some r, None)
    /\ Dns.Result.Message r = Some (Map tree)
    /\ tree !! "truncated" = Some (Bool (negb (String.eqb (Dns.Result.Err r) ""))).
Proof.
  apply (dns_truncated_message_has_an_error
           Sample.dnsLib Background Sample.dnsDefaults Sample.truncatedTwice
           {| Dns.Executor.Server := "8.8.8.8:53"; Dns.Executor.Query := "example.com";
              Dns.Executor.QType := ""; Dns.Executor.Timeout := 0 |}
           Sample.udpTruncated 3000000).
  - reflexivity.
  - discriminate.
  - reflexivity.
  - reflexivity.
Defined.

(** ** The response tree *)

Lemma fold_left_snoc_map {A B : Type} (f : A -> B) (l : list A) (acc : list B) :
  fold_left (fun out x => out ++ [f x]) l acc = acc ++ map f l.
Proof.
  revert acc. induction l as [|x l IH]; intros acc; simpl.
  - by rewrite app_nil_r.
  - rewrite IH, <- app_assoc. reflexivity.
Qed.

(** The four sections of the tree list the records of the message one
    for one and in the same order: each question with its name, type
    name and class name, each answer, authority and additional record
    as [rrToJSON] gives it.  An empty section is an empty list. *)
Theorem dnsMessageToJSON_keeps_every_record lib (msg : Dns.Msg) :
  let tree := fst (Dns.dnsMessageToJSON lib msg) in
  tree !! "question"
  = Some (Seq (map (fun q =>
                      Map {[ "name" := Str (Dns.QName q);
                             "type" := Str (Dns.index (Dns.TypeToString lib) (Dns.Qtype q));
                             "class" := Str (Dns.index (Dns.ClassToString lib) (Dns.Qclass q)) ]})
                 (Dns.Questions msg)))
  /\ tree !! "answer" = Some (Seq (map (fun rr => Map (Dns.rrToJSON lib rr)) (Dns.Answer msg)))
  /\ tree !! "authority" = Some (Seq (map (fun rr => Map (Dns.rrToJSON lib rr)) (Dns.Ns msg)))
  /\ tree !! "additional" = Some (Seq (map (fun rr => Map (Dns.rrToJSON lib rr)) (Dns.Extra msg))).
Proof.
  cbv zeta. unfold Dns.dnsMessageToJSON. cbn [fst].
  rewrite !fold_left_snoc_map. cbn [app].
  repeat split; reflexivity.
Qed.

(** The header of the tree: the identifier, the opcode and response
    code by name (the empty string for a code the library has no name
    for) and the eight flags of the message, under 11 keys; with the
    four sections the tree has 15 keys, whatever the message. *)
Theorem dnsMessageToJSON_header lib (msg : Dns.Msg) :
  let tree := fst (Dns.dnsMessageToJSON lib msg) in
  tree !! "id" = Some (Num (Dns.Id msg))
  /\ tree !! "response" = Some (Bool (Dns.Response msg))
  /\ tree !! "opcode" = Some (Str (default "" (Dns.OpcodeToString lib !! Dns.Opcode msg)))
  /\ tree !! "authoritative" = Some (Bool (Dns.Authoritative msg))
  /\ tree !! "truncated" = Some (Bool (Dns.Truncated msg))
  /\ tree !! "recursion_desired" = Some (Bool (Dns.RecursionDesired msg))
  /\ tree !! "recursion_available" = Some (Bool (Dns.RecursionAvailable msg))
  /\ tree !! "zero" = Some (Bool (Dns.Zero msg))
  /\ tree !! "authenticated_data" = Some (Bool (Dns.AuthenticatedData msg))
  /\ tree !! "checking_disabled" = Some (Bool (Dns.CheckingDisabled msg))
  /\ tree !! "rcode" = Some (Str (default "" (Dns.RcodeToString lib !! Dns.Rcode msg)))
  /\ size tree = 15%nat.
Proof.
  cbv zeta. repeat split; reflexivity.
Qed.

(** Every record of the tree has the common fields of its header —
    name, type name, class name and TTL — whatever its type; the key
    "value" holds the string form of the record, except for a CAA
    record, where the value of the CAA property replaces it. *)
Theorem rrToJSON_common_fields lib (rr : Dns.RR) :
  Dns.rrToJSON lib rr !! "name" = Some (Str (Dns.Name (Dns.Header rr)))
  /\ Dns.rrToJSON lib rr !! "type"
     = Some (Str (Dns.index (Dns.TypeToString lib) (Dns.Rrtype (Dns.Header rr))))
  /\ Dns.rrToJSON lib rr !! "class"
     = Some (Str (Dns.index (Dns.ClassToString lib) (Dns.Class (Dns.Header rr))))
  /\ Dns.rrToJSON lib rr !! "ttl" = Some (Num (Dns.Ttl (Dns.Header rr)))
  /\ Dns.rrToJSON lib rr !! "value"
     = Some (Str (match Dns.Data rr with
                  | Dns.CAA _ _ value => value
                  | _ => Dns.RR_String lib rr
                  end)).
Proof.
  unfold Dns.rrToJSON. destruct (Dns.Data rr); repeat split; reflexivity.
Qed.

(** The type-specific keys of a record: which keys [rrToJSON] adds to
    the five common ones depends on the type of the record only, and a
    record of a type without a case of its own has the five common keys
    and nothing else. *)
Theorem rrToJSON_specific_keys lib (rr : Dns.RR) :
  dom (Dns.rrToJSON lib rr)
  = {[ "name"; "type"; "class"; "ttl"; "value" ]}
    ∪ match Dns.Data rr with
      | Dns.A _ | Dns.AAAA _ => {[ "address" ]}
      | Dns.MX _ _ => {[ "preference"; "mx" ]}
      | Dns.TXT _ => {[ "txt" ]}
      | Dns.CNAME _ => {[ "target" ]}
      | Dns.NS _ => {[ "ns" ]}
      | Dns.PTR _ => {[ "ptr" ]}
      | Dns.SOA _ _ _ _ _ _ _ =>
          {[ "ns"; "mbox"; "serial"; "refresh"; "retry"; "expire"; "minttl" ]}
      | Dns.SRV _ _ _ _ => {[ "priority"; "weight"; "port"; "target" ]}
      | Dns.CAA _ _ _ => {[ "flag"; "tag" ]}
      | Dns.Other _ => (∅ : gset string)
      end.
Proof.
  unfold Dns.rrToJSON. destruct (Dns.Data rr);
    rewrite ?dom_insert_L, ?dom_singleton_L; set_solver.
Qed.

(** Every result that the DNS [Run] returns has its [TimeSeconds] set
    to the elapsed time read when it is left: for a record type outside
    the table, the time from the reading at [start] to the next reading
    of the clock; on every later exit (transport error, and after a
    response, with or without the TCP retry), the time from [start] to
    the reading after the one that derives the deadline. *)
Theorem dns_every_exit_records_elapsed_time
    lib ctx step (w : World Dns.Call Dns.Reply) r :
  fst (fst (Dns.Run lib ctx step w)) = Some r ->
  exists e,
    Dns.Decode lib step = inr e
    /\ Dns.Executor.Server e <> ""
    /\ (~ In (Dns.Executor.QType (Dns.defaults e)) Spec.qtypeNames ->
        Dns.Result.TimeSeconds r = Sub (clock w 1%nat) (clock w 0%nat)
        /\ sent (snd (Dns.Run lib ctx step w)) = sent w)
    /\ (In (Dns.Executor.QType (Dns.defaults e)) Spec.qtypeNames ->
        Dns.Result.TimeSeconds r = Sub (clock w 2%nat) (clock w 0%nat)
        /\ sent (snd (Dns.Run lib ctx step w)) <> sent w).
Proof.
  intros HR.
  destruct (Spec.dnsFatal lib step) as [err|] eqn:N.
  { rewrite (dns_Run_fatal lib ctx step w err N) in HR. discriminate. }
  apply dnsFatal_None in N as (e & D & Hs).
  exists e. split; [ exact D |]. split; [ exact Hs |]. split.
  - intros Q. destruct (dns_Run_unsupported_type lib ctx step w e D Hs Q) as [H HS].
    rewrite H in HR. injection HR as <-. by split.
  - intros Q.
    assert (forall l : list Dns.Call, length l = S (length (sent w)) -> l <> sent w) as Hlen.
    { intros l H E. rewrite E in H. lia. }
    destruct (wire w 0%nat) as [err|[udp rtt]] eqn:X.
    + destruct (dns_Run_transport_error lib ctx step w e err D Hs Q X) as [H HS].
      rewrite H in HR. injection HR as <-. split; [ reflexivity | by apply Hlen ].
    + destruct (Dns.Truncated udp) eqn:T.
      * destruct (dns_Run_truncated lib ctx step w e udp rtt D Hs Q X T) as [H [d HS]].
        rewrite H in HR. injection HR as <-. split.
        -- destruct (wire w 1%nat) as [tcpErr|[tcp tcpRtt]]; [ reflexivity |].
           destruct (Dns.Truncated tcp); reflexivity.
        -- rewrite HS. intros E. apply (f_equal length) in E.
           rewrite length_app in E. simpl in E. lia.
      * destruct (dns_Run_complete lib ctx step w e udp rtt D Hs Q X T) as [H HS].
        rewrite H in HR. injection HR as <-. split; [ reflexivity | by apply Hlen ].
Qed.

(** The invalid record type leaves after the second reading of the
    clock, the unanswered query after the third. *)
Lemma dns_every_exit_records_elapsed_time_witness :
  (exists r,
     fst (fst (Dns.Run Sample.dnsLib Background Sample.invalidType Sample.unreachable))
     = Some r /\ Dns.Result.TimeSeconds r = 7)
  /\ (exists r,
        fst (fst (Dns.Run Sample.dnsLib Background Sample.dnsDefaults Sample.unreachable))
        = Some r /\ Dns.Result.TimeSeconds r = 14).
Proof.
  split.
  - eexists. split; [ reflexivity |].
    destruct (dns_every_exit_records_elapsed_time
                Sample.dnsLib Background Sample.invalidType Sample.unreachable _ eq_refl)
      as (e & D & _ & HU & _).
    vm_compute in D. injection D as <-.
    refine (proj1 (HU _)). simpl. intuition discriminate.
  - eexists. split; [ reflexivity |].
    destruct (dns_every_exit_records_elapsed_time
                Sample.dnsLib Background Sample.dnsDefaults Sample.unreachable _ eq_refl)
      as (e & D & _ & _ & HS).
    vm_compute in D. injection D as <-.
    refine (proj1 (HS _)). simpl. tauto.
Defined.

